(** * The tool-call dispatch loop of the S3 functions notebook

    A shallow embedding of [run_conversation] and [chat_completion_request]
    from the notebook "How to automate tasks with functions (S3 bucket
    example)".  The completion service ([client.chat.completions.create]),
    [json.loads] and the bodies of the tool handlers are external: they are
    parameters of the development.  Python exceptions are an explicit
    outcome, the external world and the store of list objects are threaded
    as state, and every external call is recorded in a log of events. *)

From stdpp Require Import base strings list gmap.
From Stdlib Require Import ZArith Lia.

Open Scope string_scope.
Open Scope list_scope.

(** ** Python values and exceptions *)

(** The values [json.loads] can produce, which are also the values the
    [functions] literal is built from. *)
#[local] Unset Elimination Schemes.
Inductive PyValue : Type :=
  | PyNone
  | PyBool (b : bool)
  | PyInt (z : Z)
  | PyFloat (repr : string)
  | PyStr (s : string)
  | PyList (l : list PyValue)
  | PyDict (d : list (string * PyValue)).
#[local] Set Elimination Schemes.

(** Why a call that unpacks [function_args] as keywords is refused before
    the body of the callee runs. *)
Inductive TypeErrorReason : Type :=
  | NotAMapping
  | UnexpectedKeyword (k : string)
  | MissingArguments (ks : list string).

Inductive PyExc : Type :=
  | JSONDecodeError (doc : string)
  | KeyError (key : string)
  | TypeError (why : TypeErrorReason)
  | IndexError
  | ExternalError (kind : string) (msg : string).

Inductive Outcome (A : Type) : Type :=
  | Returned (a : A)
  | Raised (e : PyExc).
Arguments Returned {A} a.
Arguments Raised {A} e.

(** ** The objects of the completion API *)

Record Function := mkFunction {
  fn_name : string;
  fn_arguments : string
}.

Record ToolCall := mkToolCall {
  tc_id : string;
  tc_function : Function
}.

(** [content] and [tool_calls] are both optional in the API. *)
Record ChatCompletionMessage := mkMessage {
  msg_content : option string;
  msg_tool_calls : option (list ToolCall)
}.

Record Choice := mkChoice {
  message : ChatCompletionMessage
}.

Record ChatCompletion := mkCompletion {
  choices : list Choice
}.

(** An element of the [messages] list: a dict literal written by
    [run_conversation], or the response message object appended as it is. *)
Inductive Message : Type :=
  | DictMessage (role : string) (content : string) (tool_call_id : option string)
  | ResponseMessage (m : ChatCompletionMessage).

(** The keyword arguments of [client.chat.completions.create]. *)
Record CreateArgs := mkCreateArgs {
  model : string;
  messages : list Message;
  tools : option (list PyValue);
  tool_choice : option string
}.

Definition Kwargs : Type := list (string * PyValue).

(** ** Events: what a run does to the outside *)

Inductive Event : Type :=
  | CompletionCall (req : CreateArgs) (res : PyExc + ChatCompletion)
  | HandlerCall (name : string) (kwargs : Kwargs) (res : PyExc + string)
  | Printed (cs : list Choice).

Inductive CallKind : Type := Completion | Handler.

(** The external calls of a log, in order; printing is not a call. *)
Fixpoint calls (l : list Event) : list CallKind :=
  match l with
  | [] => []
  | CompletionCall _ _ :: l' => Completion :: calls l'
  | HandlerCall _ _ _ :: l' => Handler :: calls l'
  | Printed _ :: l' => calls l'
  end.

Fixpoint completion_calls (l : list Event) : list CreateArgs :=
  match l with
  | [] => []
  | CompletionCall req _ :: l' => req :: completion_calls l'
  | _ :: l' => completion_calls l'
  end.

Fixpoint handler_calls (l : list Event) : list (string * Kwargs) :=
  match l with
  | [] => []
  | HandlerCall name kw _ :: l' => (name, kw) :: handler_calls l'
  | _ :: l' => handler_calls l'
  end.

(** The exception an external call ended with, if it did. *)
Definition raised_by (ev : Event) : option PyExc :=
  match ev with
  | CompletionCall _ (inl e) => Some e
  | HandlerCall _ _ (inl e) => Some e
  | _ => None
  end.

(** ** Module-level constants of the notebook *)

Definition GPT_MODEL : string := "gpt-3.5-turbo".

Definition string_prop (description : string) : PyValue :=
  PyDict [("type", PyStr "string"); ("description", PyStr description)].

Definition boolean_prop (description : string) : PyValue :=
  PyDict [("type", PyStr "boolean"); ("description", PyStr description)].

Definition function_spec (name description : string) (parameters : PyValue) : PyValue :=
  PyDict [("type", PyStr "function");
          ("function", PyDict [("name", PyStr name);
                               ("description", PyStr description);
                               ("parameters", parameters)])].

Definition required (ks : list string) : string * PyValue :=
  ("required", PyList (PyStr <$> ks)).

(** The [functions] list handed to the model. *)
Definition functions : list PyValue :=
  [ function_spec "list_buckets" "List all available S3 buckets"
      (PyDict [("type", PyStr "object"); ("properties", PyDict [])]);
    function_spec "list_objects" "List the objects or files inside a given S3 bucket"
      (PyDict [("type", PyStr "object");
               ("properties", PyDict [
                  ("bucket", string_prop "The name of the S3 bucket");
                  ("prefix", string_prop "The folder path in the S3 bucket")]);
               required ["bucket"]]);
    function_spec "download_file"
      "Download a specific file from an S3 bucket to a local distribution folder."
      (PyDict [("type", PyStr "object");
               ("properties", PyDict [
                  ("bucket", string_prop "The name of the S3 bucket");
                  ("key", string_prop "The path to the file inside the bucket");
                  ("directory", string_prop "The local destination directory to download the file, should be specificed by the user.")]);
               required ["bucket"; "key"; "directory"]]);
    function_spec "upload_file" "Upload a file to an S3 bucket"
      (PyDict [("type", PyStr "object");
               ("properties", PyDict [
                  ("source", string_prop "The local source path or remote URL");
                  ("bucket", string_prop "The name of the S3 bucket");
                  ("key", string_prop "The path to the file inside the bucket");
                  ("is_remote_url", boolean_prop "Is the provided source a URL (True) or local path (False)")]);
               required ["source"; "bucket"; "key"; "is_remote_url"]]);
    function_spec "search_s3_objects" "Search for a specific file name inside an S3 bucket"
      (PyDict [("type", PyStr "object");
               ("properties", PyDict [
                  ("search_name", string_prop "The name of the file you want to search for");
                  ("bucket", string_prop "The name of the S3 bucket");
                  ("prefix", string_prop "The folder path in the S3 bucket");
                  ("exact_match", boolean_prop "Set exact_match to True if the search should match the exact file name. Set exact_match to False to compare part of the file name string (the file contains)")]);
               required ["search_name"]])
  ].

(** The f-string of [run_conversation]. *)
Definition system_message (topic : string) : string :=
  "Don't make assumptions about what values to plug into functions. Ask for clarification if a user request is ambiguous. If the user ask question not related to "
  +:+ topic +:+ " response your scope is " +:+ topic +:+ " only.".

Definition default_topic : string := "S3 bucket functions.".

(** ** Calling a Python function with keyword arguments *)

(** A parameter of a [def]: its name and whether it has a default. *)
Definition Param : Type := string * bool.

Definition has_key (k : string) (kw : Kwargs) : bool :=
  existsb (String.eqb k) (fst <$> kw).

Definition is_param (ps : list Param) (k : string) : bool :=
  existsb (String.eqb k) (fst <$> ps).

(** Keywords that name no parameter, in the order of the dict. *)
Definition unexpected (ps : list Param) (kw : Kwargs) : list string :=
  List.filter (fun k => negb (is_param ps k)) (fst <$> kw).

(** Parameters without default that the call leaves out. *)
Definition missing (ps : list Param) (kw : Kwargs) : list string :=
  fst <$> List.filter (fun p : Param => negb (snd p) && negb (has_key (fst p) kw)) ps.

(** Argument binding of a keyword-only call: [None] when the call is
    accepted, otherwise the [TypeError] raised before the body runs. *)
Definition bind_arguments (ps : list Param) (kw : Kwargs) : option PyExc :=
  match unexpected ps kw with
  | k :: _ => Some (TypeError (UnexpectedKeyword k))
  | [] =>
      match missing ps kw with
      | [] => None
      | ks => Some (TypeError (MissingArguments ks))
      end
  end.

(** ** The dispatch loop *)

Section Dispatch.

(** The state of the external systems (the completion service, S3). *)
Context {W : Type}.

(** A tool handler: its signature and its body, which acts on the world
    and returns a string or raises. *)
Record PyFunction := mkPyFunction {
  fn_params : list Param;
  fn_body : Kwargs -> W -> W * (PyExc + string)
}.

(** [client.chat.completions.create]. *)
Variable client_create : CreateArgs -> W -> W * (PyExc + ChatCompletion).

(** [json.loads]; [None] is a [JSONDecodeError]. *)
Variable json_loads : string -> option PyValue.

(** The global [available_functions] at the time of the call. *)
Variable available_functions : gmap string PyFunction.

(** The store of list objects: an address is an index. *)
Definition Heap : Type := list (list Message).

Record State := mkState {
  world : W;
  heap : Heap
}.

Record Result (A : Type) := mkResult {
  final : State;
  events : list Event;
  outcome : Outcome A
}.
Arguments mkResult {A} final events outcome.
Arguments final {A} r.
Arguments events {A} r.
Arguments outcome {A} r.

Definition M (A : Type) : Type := State -> Result A.

Definition ret {A} (a : A) : M A :=
  fun s => mkResult s [] (Returned a).

Definition raise {A} (e : PyExc) : M A :=
  fun s => mkResult s [] (Raised e).

Definition bind {A B} (m : M A) (k : A -> M B) : M B :=
  fun s =>
    match m s with
    | mkResult s1 ev1 (Returned a) =>
        match k a s1 with
        | mkResult s2 ev2 o => mkResult s2 (ev1 ++ ev2) o
        end
    | mkResult s1 ev1 (Raised e) => mkResult s1 ev1 (Raised e)
    end.

Notation "'do' x <- m ; k" := (bind m (fun x => k))
  (at level 10, x name, m at level 100, k at level 200).

(** [[x, y]]: a list display makes a new list object. *)
Definition new_list (l : list Message) : M nat :=
  fun s => mkResult (mkState (world s) (heap s ++ [l])) [] (Returned (length (heap s))).

(** [messages.append(x)] changes the object in place. *)
Definition list_append (a : nat) (x : Message) : M unit :=
  fun s => mkResult (mkState (world s) (alter (fun l => l ++ [x]) a (heap s))) []
                    (Returned tt).

(** The elements of the list object at [a], as the service reads them. *)
Definition read_list (a : nat) : M (list Message) :=
  fun s => mkResult s [] (Returned (default [] (heap s !! a))).

Definition create (req : CreateArgs) : M ChatCompletion :=
  fun s =>
    let (w', res) := client_create req (world s) in
    mkResult (mkState w' (heap s)) [CompletionCall req res]
             match res with
             | inl e => Raised e
             | inr r => Returned r
             end.

Definition print (cs : list Choice) : M unit :=
  fun s => mkResult s [Printed cs] (Returned tt).

(** [l[0]] *)
Definition first {A} (l : list A) : M A :=
  match l with
  | x :: _ => ret x
  | [] => raise IndexError
  end.

(** [d[k]] on a dict *)
Definition getitem (d : gmap string PyFunction) (k : string) : M PyFunction :=
  match d !! k with
  | Some f => ret f
  | None => raise (KeyError k)
  end.

(** The mapping a double-star argument unpacks. *)
Definition unpack (v : PyValue) : M Kwargs :=
  match v with
  | PyDict d => ret d
  | _ => raise (TypeError NotAMapping)
  end.

(** A call of [f] with the keywords [kw]: bind the arguments, then run
    the body. *)
Definition call (name : string) (f : PyFunction) (kw : Kwargs) : M string :=
  match bind_arguments (fn_params f) kw with
  | Some e => raise e
  | None =>
      fun s =>
        let (w', res) := fn_body f kw (world s) in
        mkResult (mkState w' (heap s)) [HandlerCall name kw res]
                 match res with
                 | inl e => Raised e
                 | inr r => Returned r
                 end
  end.

Definition loads (doc : string) : M PyValue :=
  match json_loads doc with
  | Some v => ret v
  | None => raise (JSONDecodeError doc)
  end.

Definition chat_completion_request (messages : nat) (functions : option (list PyValue))
    (function_call : string) (model_name : string) : M ChatCompletion :=
  do msgs <- read_list messages;
  match functions with
  | Some fs =>
      create (mkCreateArgs model_name msgs (Some fs) (Some function_call))
  | None =>
      create (mkCreateArgs model_name msgs None None)
  end.

Definition run_conversation (user_input topic : string) (is_log : bool)
    : M (option string) :=
  do messages <- new_list [DictMessage "system" (system_message topic) None;
                           DictMessage "user" user_input None];
  do response <- chat_completion_request messages (Some functions) "auto" GPT_MODEL;
  do choice0 <- first (choices response);
  let response_message := message choice0 in
  do _ <- (if is_log then print (choices response) else ret tt);
  match msg_tool_calls response_message with
  | Some (tool_call0 :: _) =>
      let function_name := fn_name (tc_function tool_call0) in
      do function_args <- loads (fn_arguments (tc_function tool_call0));
      do handler <- getitem available_functions function_name;
      do kwargs <- unpack function_args;
      do function_response <- call function_name handler kwargs;
      do _ <- list_append messages (ResponseMessage response_message);
      do _ <- list_append messages
                (DictMessage "tool" function_response (Some (tc_id tool_call0)));
      do second_response <- chat_completion_request messages None "auto" GPT_MODEL;
      do choice0' <- first (choices second_response);
      ret (msg_content (message choice0'))
  | _ =>
      ret (msg_content response_message)
  end.

End Dispatch.

Arguments mkResult {W A} final events outcome.
Arguments final {W A} r.
Arguments events {W A} r.
Arguments outcome {W A} r.
Arguments mkState {W} world heap.

(** ** What the first request of a run looks like *)

Definition initial_conversation (user_input topic : string) : list Message :=
  [DictMessage "system" (system_message topic) None;
   DictMessage "user" user_input None].

Definition first_request (user_input topic : string) : CreateArgs :=
  mkCreateArgs GPT_MODEL (initial_conversation user_input topic)
               (Some functions) (Some "auto").

(** ** The registry of the notebook *)

Section Registry.

Context {W : Type}.

(** What the five helpers do to S3 and return is external: the bodies
    are parameters, the signatures are those of the [def]s. *)
Variables list_buckets_body list_objects_body download_file_body
          upload_file_body search_s3_objects_body
  : Kwargs -> W -> W * (PyExc + string).

Definition list_buckets : PyFunction :=
  mkPyFunction [] list_buckets_body.

Definition list_objects : PyFunction :=
  mkPyFunction [("bucket", false); ("prefix", true)] list_objects_body.

Definition download_file : PyFunction :=
  mkPyFunction [("bucket", false); ("key", false); ("directory", false)]
               download_file_body.

Definition upload_file : PyFunction :=
  mkPyFunction [("source", false); ("bucket", false); ("key", false);
                ("is_remote_url", true)]
               upload_file_body.

Definition search_s3_objects : PyFunction :=
  mkPyFunction [("search_name", false); ("bucket", true); ("prefix", true);
                ("exact_match", true)]
               search_s3_objects_body.

Definition available_functions : gmap string PyFunction :=
  list_to_map [("list_buckets", list_buckets);
               ("list_objects", list_objects);
               ("download_file", download_file);
               ("upload_file", upload_file);
               ("search_s3_objects", search_s3_objects)].

End Registry.

(** ** Stubs for running the loop on concrete inputs *)

Module Stub.

(** The world is a counter of the side effects performed so far. *)
Definition World : Type := nat.

(** A handler body with one observable effect per run. *)
Definition counting (result : string) : Kwargs -> World -> World * (PyExc + string) :=
  fun _ n => (S n, inr result).

(** A handler body whose external system fails after the effect. *)
Definition failing (e : PyExc) : Kwargs -> World -> World * (PyExc + string) :=
  fun _ n => (S n, inl e).

Definition registry : gmap string (@PyFunction World) :=
  available_functions (counting "[]") (counting "[]") (counting "{}")
                      (counting "{}") (counting "[]").

(** The same registry when S3 is down for [list_buckets]. *)
Definition broken_registry : gmap string (@PyFunction World) :=
  available_functions (failing (ExternalError "EndpointConnectionError" "s3"))
                      (counting "[]") (counting "{}") (counting "{}") (counting "[]").

(** Decodes the two documents the examples use. *)
Definition json_loads (doc : string) : option PyValue :=
  if String.eqb doc "{}" then Some (PyDict [])
  else if String.eqb doc "[]" then Some (PyList [])
  else None.

Definition tool_call (id name arguments : string) : ToolCall :=
  mkToolCall id (mkFunction name arguments).

Definition text_reply (text : string) : ChatCompletion :=
  mkCompletion [mkChoice (mkMessage (Some text) None)].

Definition tool_reply (tcs : list ToolCall) : ChatCompletion :=
  mkCompletion [mkChoice (mkMessage None (Some tcs))].

(** A completion service that selects [tcs] whenever it is offered tools
    and answers with a fixed summary otherwise. *)
Definition selecting (tcs : list ToolCall)
    : CreateArgs -> World -> World * (PyExc + ChatCompletion) :=
  fun req n =>
    match tools req with
    | Some _ => (n, inr (tool_reply tcs))
    | None => (n, inr (text_reply "summary"))
    end.

(** A completion service that never selects a tool. *)
Definition chatting (text : string)
    : CreateArgs -> World -> World * (PyExc + ChatCompletion) :=
  fun _ n => (n, inr (text_reply text)).

(** A completion service that is down. *)
Definition unreachable (e : PyExc)
    : CreateArgs -> World -> World * (PyExc + ChatCompletion) :=
  fun _ n => (n, inl e).

(** Selects [tcs] when offered tools and is down afterwards. *)
Definition selecting_then_down (tcs : list ToolCall) (e : PyExc)
    : CreateArgs -> World -> World * (PyExc + ChatCompletion) :=
  fun req n =>
    match tools req with
    | Some _ => (n, inr (tool_reply tcs))
    | None => (n, inl e)
    end.

Definition start : @State World := mkState 0 [].

Definition run (service : CreateArgs -> World -> World * (PyExc + ChatCompletion))
    (user_input : string) : Result (option string) :=
  run_conversation service json_loads registry user_input default_topic false start.

Definition run_broken (service : CreateArgs -> World -> World * (PyExc + ChatCompletion))
    (user_input : string) : Result (option string) :=
  run_conversation service json_loads broken_registry user_input default_topic false start.

End Stub.

(** ** Reading the log and the declared schemas *)

(** A log without what [print] wrote. *)
Fixpoint without_prints (l : list Event) : list Event :=
  match l with
  | [] => []
  | Printed _ :: l' => without_prints l'
  | ev :: l' => ev :: without_prints l'
  end.

(** [d.get(k)] on a value that may be a dict. *)
Definition dict_get (k : string) (v : PyValue) : option PyValue :=
  match v with
  | PyDict d => snd <$> List.find (fun p => String.eqb k (fst p)) d
  | _ => None
  end.

Definition as_str (v : PyValue) : option string :=
  match v with
  | PyStr s => Some s
  | _ => None
  end.

(** The name an entry of [functions] declares. *)
Definition declared_name (spec : PyValue) : option string :=
  match dict_get "function" spec with
  | Some f => match dict_get "name" f with Some n => as_str n | None => None end
  | None => None
  end.

Definition declared_parameters (spec : PyValue) : option PyValue :=
  match dict_get "function" spec with
  | Some f => dict_get "parameters" f
  | None => None
  end.

(** The property names of the declared parameter schema. *)
Definition declared_properties (spec : PyValue) : list string :=
  match declared_parameters spec with
  | Some ps =>
      match dict_get "properties" ps with
      | Some (PyDict d) => fst <$> d
      | _ => []
      end
  | None => []
  end.

(** The names under ["required"]; none when the key is absent. *)
Definition declared_required (spec : PyValue) : list string :=
  match declared_parameters spec with
  | Some ps =>
      match dict_get "required" ps with
      | Some (PyList l) => omap as_str l
      | _ => []
      end
  | None => []
  end.

(** An arguments object conforms to a declared schema when it uses
    declared properties only and has every required one. *)
Definition conforms (spec : PyValue) (kw : Kwargs) : bool :=
  forallb (fun k => existsb (String.eqb k) (declared_properties spec)) (fst <$> kw)
  && forallb (fun k => has_key k kw) (declared_required spec).

(** ** The S3 helpers of the notebook

    [datetime_converter], [list_buckets], [list_objects], [download_file],
    [upload_file] and [search_s3_objects].  The S3 client, [urlretrieve],
    the [json] and [os.path] functions and the methods of [str] are
    external: they are parameters.  What the helpers do with their results
    (subscripting, iterating, testing, comparing) is written out on
    [PyValue], with the exceptions Python raises on the wrong kind of
    value. *)

Module S3.

(** A value inside a boto3 response: JSON-like, with datetimes and other
    objects that [json] cannot encode by itself.  A datetime is given by
    what its [isoformat()] returns. *)
#[local] Unset Elimination Schemes.
Inductive BotoValue : Type :=
  | BNone
  | BBool (b : bool)
  | BInt (z : Z)
  | BFloat (repr : string)
  | BStr (s : string)
  | BList (l : list BotoValue)
  | BDict (d : list (string * BotoValue))
  | BDatetime (isoformat : string)
  | BObject (class_name : string).
#[local] Set Elimination Schemes.

(** The [TypeError]s of the helpers, by what was wrong with the value. *)
Inductive TypeErrorKind : Type :=
  | NotIterable
  | NotSubscriptable
  | BadIndex
  | NotSerializable
  | NotAPath.

(** The exceptions of the helpers: those of the dispatch loop, and the
    ones raised on a value of the wrong class. *)
Inductive PyError : Type :=
  | Core (e : PyExc)
  | AttributeError (class_name attr : string)
  | ValueTypeError (kind : TypeErrorKind) (class_name : string).

(** [obj.__class__.__name__] *)
Definition class_name_of (obj : BotoValue) : string :=
  match obj with
  | BNone => "NoneType"
  | BBool _ => "bool"
  | BInt _ => "int"
  | BFloat _ => "float"
  | BStr _ => "str"
  | BList _ => "list"
  | BDict _ => "dict"
  | BDatetime _ => "datetime"
  | BObject c => c
  end.

Definition type_name (v : PyValue) : string :=
  match v with
  | PyNone => "NoneType"
  | PyBool _ => "bool"
  | PyInt _ => "int"
  | PyFloat _ => "float"
  | PyStr _ => "str"
  | PyList _ => "list"
  | PyDict _ => "dict"
  end.

Definition datetime_converter (obj : BotoValue) : PyError + string :=
  match obj with
  | BDatetime isoformat => inr isoformat
  | _ => inl (ValueTypeError NotSerializable (class_name_of obj))
  end.

(** [a in b] on two strings. *)
Fixpoint is_substring (a b : string) : bool :=
  String.prefix a b
  || match b with
     | EmptyString => false
     | String _ b' => is_substring a b'
     end.

(** [d[k]] on a dict held as its items. *)
Definition lookup_item {V} (k : string) (d : list (string * V)) : option V :=
  snd <$> List.find (fun p => String.eqb k (fst p)) d.

(** [v[k]] with a string [k]. *)
Definition getitem (v : PyValue) (k : string) : PyError + PyValue :=
  match v with
  | PyDict d =>
      match lookup_item k d with
      | Some x => inr x
      | None => inl (Core (KeyError k))
      end
  | PyList _ | PyStr _ => inl (ValueTypeError BadIndex (type_name v))
  | _ => inl (ValueTypeError NotSubscriptable (type_name v))
  end.

(** The results of a comprehension whose element expression may raise:
    left to right, up to the first exception. *)
Fixpoint collect {A B} (f : A -> PyError + B) (l : list A) : PyError + list B :=
  match l with
  | [] => inr []
  | x :: l' =>
      match f x with
      | inl e => inl e
      | inr y =>
          match collect f l' with
          | inl e => inl e
          | inr ys => inr (y :: ys)
          end
      end
  end.

(** The defaults of the helpers' signatures: [bucket=None], [prefix=''],
    [exact_match=True], [is_remote_url=False]. *)
Definition default_bucket : PyValue := PyNone.
Definition default_prefix : PyValue := PyStr EmptyString.
Definition default_exact_match : PyValue := PyBool true.
Definition default_is_remote_url : PyValue := PyBool false.

(** One S3 request or download, as the helpers issue them. *)
Inductive Request : Type :=
  | ListBuckets
  | ListObjectsV2 (bucket prefix : PyValue)
  | DownloadFile (bucket key : PyValue) (destination : string)
  | UploadFile (source bucket key : PyValue)
  | UrlRetrieve (url : PyValue) (filename : string).

Section Helpers.

(** The state of S3 and of the local file system. *)
Context {W : Type}.

Variable s3_list_buckets : W -> W * (PyError + list (string * BotoValue)).
Variable s3_list_objects_v2 :
  PyValue -> PyValue -> W -> W * (PyError + list (string * BotoValue)).
Variable s3_download_file : PyValue -> PyValue -> string -> W -> W * (PyError + unit).
Variable s3_upload_file : PyValue -> PyValue -> PyValue -> W -> W * (PyError + unit).
Variable urlretrieve : PyValue -> string -> W -> W * (PyError + unit).

(** [json.dumps(obj, default=f)], [json.dumps(obj)] on values that [json]
    encodes by itself, and [json.loads]. *)
Variable json_dumps_default : (BotoValue -> PyError + string) -> BotoValue -> PyError + string.
Variable json_dumps : PyValue -> string.
Variable json_loads : string -> option PyValue.

(** [str.lower], the characters of a [str], and whether a float is zero. *)
Variable str_lower : string -> string.
Variable characters : string -> list string.
Variable float_is_zero : string -> bool.

(** [os.path.basename] and [os.path.join] on strings. *)
Variable basename : string -> string.
Variable join : string -> string -> string.

Record Step (A : Type) := mkStep {
  after : W;
  requests : list Request;
  result : PyError + A
}.
Arguments mkStep {A} after requests result.
Arguments after {A} s.
Arguments requests {A} s.
Arguments result {A} s.

Definition H (A : Type) : Type := W -> Step A.

Definition ret {A} (a : A) : H A :=
  fun w => mkStep w [] (inr a).

Definition lift {A} (r : PyError + A) : H A :=
  fun w => mkStep w [] r.

Definition bind {A B} (m : H A) (k : A -> H B) : H B :=
  fun w =>
    match m w with
    | mkStep w1 rq1 (inr a) =>
        match k a w1 with
        | mkStep w2 rq2 r => mkStep w2 (rq1 ++ rq2) r
        end
    | mkStep w1 rq1 (inl e) => mkStep w1 rq1 (inl e)
    end.

Notation "'do' x <- m ; k" := (bind m (fun x => k))
  (at level 10, x name, m at level 100, k at level 200).

(** An external call: it is on record whether it returns or raises. *)
Definition request {A} (rq : Request) (f : W -> W * (PyError + A)) : H A :=
  fun w => let (w', r) := f w in mkStep w' [rq] r.

(** [bool(v)] *)
Definition truthy (v : PyValue) : bool :=
  match v with
  | PyNone => false
  | PyBool b => b
  | PyInt z => negb (Z.eqb z 0)
  | PyFloat r => negb (float_is_zero r)
  | PyStr s => negb (String.eqb s EmptyString)
  | PyList l => match l with [] => false | _ => true end
  | PyDict d => match d with [] => false | _ => true end
  end.

(** [v.lower()] *)
Definition lower (v : PyValue) : PyError + string :=
  match v with
  | PyStr s => inr (str_lower s)
  | _ => inl (AttributeError (type_name v) "lower")
  end.

(** The elements a [for] sees in [v]. *)
Definition iterate (v : PyValue) : PyError + list PyValue :=
  match v with
  | PyList l => inr l
  | PyDict d => inr (PyStr <$> d.*1)
  | PyStr s => inr (PyStr <$> characters s)
  | _ => inl (ValueTypeError NotIterable (type_name v))
  end.

(** [os.path.basename(v)] and [os.path.join(v, name)] take strings. *)
Definition path_basename (v : PyValue) : PyError + string :=
  match v with
  | PyStr s => inr (basename s)
  | _ => inl (ValueTypeError NotAPath (type_name v))
  end.

Definition path_join (v : PyValue) (name : string) : PyError + string :=
  match v with
  | PyStr s => inr (join s name)
  | _ => inl (ValueTypeError NotAPath (type_name v))
  end.

Definition loads (doc : string) : H PyValue :=
  match json_loads doc with
  | Some v => ret v
  | None => lift (inl (Core (JSONDecodeError doc)))
  end.

Definition list_buckets : H string :=
  do response <- request ListBuckets s3_list_buckets;
  match lookup_item "Buckets" response with
  | Some buckets => lift (json_dumps_default datetime_converter buckets)
  | None => lift (inl (Core (KeyError "Buckets")))
  end.

Definition list_objects (bucket prefix : PyValue) : H string :=
  do response <- request (ListObjectsV2 bucket prefix) (s3_list_objects_v2 bucket prefix);
  lift (json_dumps_default datetime_converter
          (default (BList []) (lookup_item "Contents" response))).

Definition download_file (bucket key directory : PyValue) : H string :=
  do filename <- lift (path_basename key);
  do destination <- lift (path_join directory filename);
  do _ <- request (DownloadFile bucket key destination)
                  (s3_download_file bucket key destination);
  ret (json_dumps (PyDict [("status", PyStr "success"); ("bucket", bucket);
                           ("key", key); ("destination", PyStr destination)])).

Definition upload_file (source bucket key is_remote_url : PyValue) : H string :=
  do source <-
    (if truthy is_remote_url then
       do file_name <- lift (path_basename source);
       do _ <- request (UrlRetrieve source file_name) (urlretrieve source file_name);
       ret (PyStr file_name)
     else ret source);
  do _ <- request (UploadFile source bucket key) (s3_upload_file source bucket key);
  ret (json_dumps (PyDict [("status", PyStr "success"); ("source", source);
                           ("bucket", bucket); ("key", key)])).

(** [[obj for obj in objs if test(obj['Key'].lower())]] *)
Fixpoint select (test : string -> bool) (objs : list PyValue) : PyError + list PyValue :=
  match objs with
  | [] => inr []
  | obj :: objs' =>
      match getitem obj "Key" with
      | inl e => inl e
      | inr key =>
          match lower key with
          | inl e => inl e
          | inr key_lower =>
              match select test objs' with
              | inl e => inl e
              | inr hits => inr (if test key_lower then obj :: hits else hits)
              end
          end
      end
  end.

(** The lowered key of a listed object, for stating what a search finds. *)
Definition key_lower (obj : PyValue) : option string :=
  match getitem obj "Key" with
  | inr (PyStr key) => Some (str_lower key)
  | _ => None
  end.

(** [{"Bucket": bucket_name, "Object": obj}] *)
Definition found (bucket_name obj : PyValue) : PyValue :=
  PyDict [("Bucket", bucket_name); ("Object", obj)].

(** The body of the loop up to [bucket_results]: list the bucket, decode
    the listing, keep the objects whose key matches. *)
Definition bucket_results (search_name : string) (prefix exact_match bucket_name : PyValue)
    : H (list PyValue) :=
  do doc <- list_objects bucket_name prefix;
  do objects_response <- loads doc;
  do objs <- lift (iterate objects_response);
  lift (if truthy exact_match
        then select (String.eqb search_name) objs
        else select (is_substring search_name) objs).

(** The [for bucket_name in buckets] loop, with [results] so far. *)
Fixpoint search_buckets (search_name : string) (prefix exact_match : PyValue)
    (buckets results : list PyValue) : H (list PyValue) :=
  match buckets with
  | [] => ret results
  | bucket_name :: buckets' =>
      do hits <- bucket_results search_name prefix exact_match bucket_name;
      search_buckets search_name prefix exact_match buckets'
        match hits with
        | [] => results
        | _ => results ++ (found bucket_name <$> hits)
        end
  end.

(** The [buckets] to go through: all of them when [bucket] is [None]. *)
Definition buckets_to_search (bucket : PyValue) : H (list PyValue) :=
  match bucket with
  | PyNone =>
      do doc <- list_buckets;
      do buckets_response <- loads doc;
      do infos <- lift (iterate buckets_response);
      lift (collect (fun bucket_info => getitem bucket_info "Name") infos)
  | _ => ret [bucket]
  end.

Definition search_s3_objects (search_name bucket prefix exact_match : PyValue)
    : H string :=
  do search_name <- lift (lower search_name);
  do buckets <- buckets_to_search bucket;
  do results <- search_buckets search_name prefix exact_match buckets [];
  ret (json_dumps (PyList results)).

End Helpers.

Arguments mkStep {W A} after requests result.
Arguments after {W A} s.
Arguments requests {W A} s.
Arguments result {W A} s.

End S3.

(** ** A stub S3 for running the helpers *)

Module Bucket.

Import S3.

(** The world counts the transfers done. *)
Definition World : Type := nat.

Definition created : string * BotoValue :=
  ("CreationDate", BDatetime "2023-05-01T10:00:00").

(** Two buckets: [photos] holds three objects, [logs] none. *)
Definition s3_list_buckets (w : World) : World * (PyError + list (string * BotoValue)) :=
  (w, inr [("Buckets", BList [BDict [("Name", BStr "photos"); created];
                              BDict [("Name", BStr "logs"); created]])]).

Definition s3_list_objects_v2 (bucket prefix : PyValue) (w : World)
    : World * (PyError + list (string * BotoValue)) :=
  match bucket with
  | PyStr name =>
      if String.eqb name "photos" then
        (w, inr [("Contents", BList [BDict [("Key", BStr "Cat.JPG")];
                                     BDict [("Key", BStr "cat.jpg.bak")];
                                     BDict [("Key", BStr "dog.png")]])])
      else if String.eqb name "logs" then (w, inr [("KeyCount", BInt 0)])
      else (w, inl (Core (ExternalError "NoSuchBucket" name)))
  | _ => (w, inl (Core (ExternalError "ParamValidationError" "Bucket")))
  end.

Definition s3_download_file (bucket key : PyValue) (destination : string) (w : World)
    : World * (PyError + unit) :=
  (S w, inr tt).

Definition s3_upload_file (source bucket key : PyValue) (w : World)
    : World * (PyError + unit) :=
  (S w, inr tt).

(** The network is down for every address but one. *)
Definition urlretrieve (url : PyValue) (filename : string) (w : World)
    : World * (PyError + unit) :=
  match url with
  | PyStr address =>
      if String.eqb address "https://example.com/img/cat.jpg" then (S w, inr tt)
      else (w, inl (Core (ExternalError "URLError" address)))
  | _ => (w, inl (Core (ExternalError "URLError" "unknown url type")))
  end.

(** A stand-in for the encoder: it names the listing it was given. *)
Definition dumps_listing (hook : BotoValue -> PyError + string) (v : BotoValue)
    : PyError + string :=
  match v with
  | BList [] => inr "[]"
  | BList (BDict (("Name", _) :: _) :: _) => inr "buckets"
  | BList (BDict (("Key", _) :: _) :: _) => inr "objects"
  | _ => inl (ValueTypeError NotSerializable (class_name_of v))
  end.

(** The decoder of these names. *)
Definition loads_listing (doc : string) : option PyValue :=
  if String.eqb doc "[]" then Some (PyList [])
  else if String.eqb doc "buckets" then
    Some (PyList [PyDict [("Name", PyStr "photos");
                          ("CreationDate", PyStr "2023-05-01T10:00:00")];
                  PyDict [("Name", PyStr "logs");
                          ("CreationDate", PyStr "2023-05-01T10:00:00")]])
  else if String.eqb doc "objects" then
    Some (PyList [PyDict [("Key", PyStr "Cat.JPG")];
                  PyDict [("Key", PyStr "cat.jpg.bak")];
                  PyDict [("Key", PyStr "dog.png")]])
  else None.

(** A stand-in for the encoder of results: it tells the number of items. *)
Definition dumps_count (v : PyValue) : string :=
  match v with
  | PyList [] => "0 items"
  | PyList [_] => "1 item"
  | PyList _ => "items"
  | _ => "object"
  end.

(** [str.lower] on ASCII letters. *)
Definition ascii_lower (c : Ascii.ascii) : Ascii.ascii :=
  let n := Ascii.nat_of_ascii c in
  if (65 <=? n)%nat && (n <=? 90)%nat then Ascii.ascii_of_nat (n + 32) else c.

Fixpoint str_lower (s : string) : string :=
  match s with
  | EmptyString => EmptyString
  | String c s' => String (ascii_lower c) (str_lower s')
  end.

Fixpoint characters (s : string) : list string :=
  match s with
  | EmptyString => []
  | String c s' => String c EmptyString :: characters s'
  end.

Definition float_is_zero (repr : string) : bool := String.eqb repr "0.0".

(** What follows the last slash. *)
Fixpoint basename_from (s name : string) : string :=
  match s with
  | EmptyString => name
  | String c s' =>
      if String.eqb (String c EmptyString) "/" then basename_from s' EmptyString
      else basename_from s' (name +:+ String c EmptyString)
  end.

Definition basename (s : string) : string := basename_from s EmptyString.

Definition join (directory name : string) : string :=
  if String.eqb directory EmptyString then name else directory +:+ "/" +:+ name.

Definition search : PyValue -> PyValue -> PyValue -> PyValue -> World -> Step string :=
  search_s3_objects s3_list_buckets s3_list_objects_v2 dumps_listing dumps_count
                    loads_listing str_lower characters float_is_zero.

Definition upload : PyValue -> PyValue -> PyValue -> PyValue -> World -> Step string :=
  upload_file s3_upload_file urlretrieve dumps_count float_is_zero basename.

Definition download : PyValue -> PyValue -> PyValue -> World -> Step string :=
  download_file s3_download_file dumps_count basename join.

End Bucket.

(** ** Stub services that answer without choices *)

Module Silent.

(** A completion service whose responses have no choices. *)
Definition always : CreateArgs -> Stub.World -> Stub.World * (PyExc + ChatCompletion) :=
  fun _ n => (n, inr (mkCompletion [])).

(** Selects [tcs] when offered tools and has no choices afterwards. *)
Definition after_selecting (tcs : list ToolCall)
    : CreateArgs -> Stub.World -> Stub.World * (PyExc + ChatCompletion) :=
  fun req n =>
    match tools req with
    | Some _ => (n, inr (Stub.tool_reply tcs))
    | None => (n, inr (mkCompletion []))
    end.

End Silent.


(** * Properties of the dispatch loop *)

(** The stubs run: one tool is selected, executed once, and summarised. *)
Example run_list_buckets :
  let r := Stub.run (Stub.selecting [Stub.tool_call "call_1" "list_buckets" "{}"])
                    "list my S3 buckets" in
  outcome r = Returned (Some "summary")
  /\ calls (events r) = [Completion; Handler; Completion]
  /\ world (final r) = 1.
Proof. vm_compute. auto. Qed.

(** A keyword the signature does not know is refused before the body runs. *)
Example bind_arguments_unexpected :
  bind_arguments (fn_params (list_buckets (Stub.counting "[]"))) [("bucket", PyStr "b")]
  = Some (TypeError (UnexpectedKeyword "bucket")).
Proof. reflexivity. Qed.

Example bind_arguments_missing :
  bind_arguments (fn_params (download_file (Stub.counting "[]"))) [("bucket", PyStr "b")]
  = Some (TypeError (MissingArguments ["key"; "directory"])).
Proof. reflexivity. Qed.

Example bind_arguments_default :
  bind_arguments (fn_params (list_objects (Stub.counting "[]"))) [("bucket", PyStr "b")]
  = None.
Proof. reflexivity. Qed.

Section Facts.

Context {W : Type}.
Variable client_create : CreateArgs -> W -> W * (PyExc + ChatCompletion).
Variable json_loads : string -> option PyValue.
Variable handlers : gmap string (@PyFunction W).

Local Abbreviation run := (run_conversation client_create json_loads handlers).

(** *** The store: a fresh object sits at the end *)

Lemma lookup_fresh (h : Heap) (l : list Message) :
  (h ++ [l]) !! length h = Some l.
Proof. by apply list_lookup_middle. Qed.

Lemma alter_fresh (f : list Message -> list Message) (h : Heap) (l : list Message) :
  alter f (length h) (h ++ [l]) = h ++ [f l].
Proof.
  replace (length h) with (length h + 0) by lia.
  by rewrite alter_app_r.
Qed.

(** *** Symbolic execution of a run

    Every path of [run_conversation], with the store and the monad
    computed away: what is left are the external calls and the tests on
    their results. *)
Lemma run_conversation_eq ui topic is_log w h :
  run ui topic is_log (mkState w h) =
  let conv := initial_conversation ui topic in
  let req1 := first_request ui topic in
  let (w1, res1) := client_create req1 w in
  let ev1 := CompletionCall req1 res1 in
  match res1 with
  | inl e => mkResult (mkState w1 (h ++ [conv])) [ev1] (Raised e)
  | inr response =>
      match choices response with
      | [] => mkResult (mkState w1 (h ++ [conv])) [ev1] (Raised IndexError)
      | choice0 :: _ =>
          let m := message choice0 in
          let pre := ev1 :: (if is_log then [Printed (choices response)] else []) in
          match msg_tool_calls m with
          | Some (tc :: _) =>
              let name := fn_name (tc_function tc) in
              let doc := fn_arguments (tc_function tc) in
              match json_loads doc with
              | None =>
                  mkResult (mkState w1 (h ++ [conv])) pre (Raised (JSONDecodeError doc))
              | Some v =>
                  match handlers !! name with
                  | None =>
                      mkResult (mkState w1 (h ++ [conv])) pre (Raised (KeyError name))
                  | Some f =>
                      match v with
                      | PyDict kw =>
                          match bind_arguments (fn_params f) kw with
                          | Some e => mkResult (mkState w1 (h ++ [conv])) pre (Raised e)
                          | None =>
                              let (w2, res2) := fn_body f kw w1 in
                              let ev2 := HandlerCall name kw res2 in
                              match res2 with
                              | inl e =>
                                  mkResult (mkState w2 (h ++ [conv])) (pre ++ [ev2])
                                           (Raised e)
                              | inr result =>
                                  let conv' :=
                                    conv ++ [ResponseMessage m;
                                             DictMessage "tool" result (Some (tc_id tc))] in
                                  let req2 := mkCreateArgs GPT_MODEL conv' None None in
                                  let (w3, res3) := client_create req2 w2 in
                                  let ev3 := CompletionCall req2 res3 in
                                  mkResult (mkState w3 (h ++ [conv'])) (pre ++ [ev2; ev3])
                                    match res3 with
                                    | inl e => Raised e
                                    | inr second_response =>
                                        match choices second_response with
                                        | [] => Raised IndexError
                                        | choice0' :: _ =>
                                            Returned (msg_content (message choice0'))
                                        end
                                    end
                              end
                          end
                      | _ =>
                          mkResult (mkState w1 (h ++ [conv])) pre
                                   (Raised (TypeError NotAMapping))
                      end
                  end
              end
          | _ => mkResult (mkState w1 (h ++ [conv])) pre (Returned (msg_content m))
          end
      end
  end.
Proof.
  unfold first_request, initial_conversation.
  unfold run_conversation, chat_completion_request, bind, new_list, read_list,
    list_append, create, print, first, loads, getitem, unpack, call, ret, raise.
  cbn [world heap]. rewrite lookup_fresh. cbn [default id].
  destruct (client_create _ w) as [w1 [e|response]]; [reflexivity|].
  destruct (choices response) as [|choice0 cs]; [reflexivity|].
  destruct (msg_tool_calls (message choice0)) as [[|tc tcs]|];
    [destruct is_log; reflexivity| |destruct is_log; reflexivity].
  destruct (json_loads _) as [v|]; [|destruct is_log; reflexivity].
  destruct (handlers !! _) as [f|]; [|destruct is_log; reflexivity].
  destruct v as [| | | | | |kw]; try (destruct is_log; reflexivity).
  destruct (bind_arguments _ _); [destruct is_log; reflexivity|].
  destruct is_log; cbn [world heap].
  all: destruct (fn_body f kw w1) as [w2 [e|result]]; [reflexivity|].
  all: cbn [world heap]; rewrite !alter_fresh, lookup_fresh; cbn [default id].
  all: destruct (client_create _ w2) as [w3 [e|second_response]]; [reflexivity|].
  all: destruct (choices second_response); reflexivity.
Qed.

(** Case analysis on every test of the symbolic form. *)
Ltac run_cases :=
  rewrite ?run_conversation_eq; cbv zeta;
  repeat match goal with
         | |- context [match ?x with _ => _ end] => destruct x eqn:?
         end.

Ltac observe :=
  cbn [events outcome final world heap calls completion_calls handler_calls
       app length raised_by].

(** C3: whatever the service answers, a run calls at most one tool
    handler and makes one or two completion calls, never more. *)
Theorem at_most_one_handler_two_completions ui topic is_log s :
  let r := run ui topic is_log s in
  length (handler_calls (events r)) <= 1
  /\ (length (completion_calls (events r)) = 1
      \/ length (completion_calls (events r)) = 2).
Proof.
  destruct s as [w h]. cbv zeta. run_cases; observe; auto.
Qed.

(** Execution along the path that the hypotheses in the context select. *)
Ltac run_along :=
  rewrite ?run_conversation_eq; cbv zeta;
  repeat match goal with
         | H : _ = _ |- _ => rewrite H; cbv beta iota
         end.

(** C2: when the first response carries no tool invocation, the run
    makes exactly one completion call, calls no handler, and returns the
    content of that response as it is. *)
Theorem no_tool_single_completion ui topic is_log w h w1 response choice0 rest :
  client_create (first_request ui topic) w = (w1, inr response) ->
  choices response = choice0 :: rest ->
  msg_tool_calls (message choice0) = None
    \/ msg_tool_calls (message choice0) = Some [] ->
  let r := run ui topic is_log (mkState w h) in
  completion_calls (events r) = [first_request ui topic]
  /\ handler_calls (events r) = []
  /\ outcome r = Returned (msg_content (message choice0)).
Proof.
  intros Hcall Hchoices [Hnone|Hempty]; cbv zeta; run_along;
    destruct is_log; observe; auto.
Qed.

(** C1, amended: when the first response carries a tool invocation whose
    name is in the registry, whose arguments decode to an object that
    the handler's signature accepts, and the handler returns, the
    external calls of the run are a completion call, the handler call
    and a second completion call, in that order. *)
Theorem tool_path_two_completions_one_handler
    ui topic is_log w h w1 response choice0 rest tc tcs kw f w2 result :
  client_create (first_request ui topic) w = (w1, inr response) ->
  choices response = choice0 :: rest ->
  msg_tool_calls (message choice0) = Some (tc :: tcs) ->
  json_loads (fn_arguments (tc_function tc)) = Some (PyDict kw) ->
  handlers !! fn_name (tc_function tc) = Some f ->
  bind_arguments (fn_params f) kw = None ->
  fn_body f kw w1 = (w2, inr result) ->
  calls (events (run ui topic is_log (mkState w h)))
  = [Completion; Handler; Completion].
Proof.
  intros Hcall Hchoices Htool Hjson Hget Hbind Hbody. run_along.
  destruct (client_create _ w2) as [w3 res3].
  destruct is_log; observe; reflexivity.
Qed.

(** C4: when the selected invocation names a tool that the registry
    lacks, the run raises (the decoding error if the arguments are not
    JSON, the [KeyError] of the lookup otherwise), no handler runs, and
    the first completion call is the only one. *)
Theorem unknown_tool_raises ui topic is_log w h w1 response choice0 rest tc tcs :
  client_create (first_request ui topic) w = (w1, inr response) ->
  choices response = choice0 :: rest ->
  msg_tool_calls (message choice0) = Some (tc :: tcs) ->
  handlers !! fn_name (tc_function tc) = None ->
  let r := run ui topic is_log (mkState w h) in
  outcome r = Raised match json_loads (fn_arguments (tc_function tc)) with
                     | Some _ => KeyError (fn_name (tc_function tc))
                     | None => JSONDecodeError (fn_arguments (tc_function tc))
                     end
  /\ completion_calls (events r) = [first_request ui topic]
  /\ handler_calls (events r) = [].
Proof.
  intros Hcall Hchoices Htool Hget. cbv zeta. run_along.
  destruct (json_loads _); destruct is_log; observe; auto.
Qed.

(** C5: on the tool path the second completion call carries the initial
    turns, then the assistant's response message, then the tool turn with
    the handler's result and the invocation's identifier; it carries no
    tool list and no tool choice; and the run returns the content of the
    second response. *)
Theorem second_request_updated_conversation
    ui topic is_log w h w1 response choice0 rest tc tcs kw f w2 result :
  client_create (first_request ui topic) w = (w1, inr response) ->
  choices response = choice0 :: rest ->
  msg_tool_calls (message choice0) = Some (tc :: tcs) ->
  json_loads (fn_arguments (tc_function tc)) = Some (PyDict kw) ->
  handlers !! fn_name (tc_function tc) = Some f ->
  bind_arguments (fn_params f) kw = None ->
  fn_body f kw w1 = (w2, inr result) ->
  let r := run ui topic is_log (mkState w h) in
  let req2 :=
    mkCreateArgs GPT_MODEL
      [DictMessage "system" (system_message topic) None;
       DictMessage "user" ui None;
       ResponseMessage (message choice0);
       DictMessage "tool" result (Some (tc_id tc))]
      None None in
  completion_calls (events r) = [first_request ui topic; req2]
  /\ forall w3 second_response choice0' rest',
       client_create req2 w2 = (w3, inr second_response) ->
       choices second_response = choice0' :: rest' ->
       outcome r = Returned (msg_content (message choice0')).
Proof.
  intros Hcall Hchoices Htool Hjson Hget Hbind Hbody. cbv zeta. run_along.
  unfold initial_conversation. cbn [app].
  split.
  - destruct (client_create _ w2) as [w3 res3].
    destruct is_log; observe; reflexivity.
  - intros w3 second_response choice0' rest' Hcall2 Hchoices2.
    rewrite Hcall2. cbv beta iota. rewrite Hchoices2.
    reflexivity.
Qed.

(** C10: when the arguments of the selected invocation are not JSON, the
    run raises the decoding error, no handler has run, and the world is
    as the first completion call left it. *)
Theorem bad_json_no_handler ui topic is_log w h w1 response choice0 rest tc tcs :
  client_create (first_request ui topic) w = (w1, inr response) ->
  choices response = choice0 :: rest ->
  msg_tool_calls (message choice0) = Some (tc :: tcs) ->
  json_loads (fn_arguments (tc_function tc)) = None ->
  let r := run ui topic is_log (mkState w h) in
  outcome r = Raised (JSONDecodeError (fn_arguments (tc_function tc)))
  /\ handler_calls (events r) = []
  /\ completion_calls (events r) = [first_request ui topic]
  /\ world (final r) = w1.
Proof.
  intros Hcall Hchoices Htool Hjson. cbv zeta. run_along.
  destruct is_log; observe; auto.
Qed.

(** C9: when the response carries several tool invocations, only the
    first is decoded, looked up and executed; the one tool turn sent back
    carries the first invocation's identifier; and whatever the later
    invocations are, they raise nothing: the outcome is that of the
    second completion call. *)
Theorem only_first_invocation_dispatched
    ui topic is_log w h w1 response choice0 rest tc tc' tcs kw f w2 result :
  client_create (first_request ui topic) w = (w1, inr response) ->
  choices response = choice0 :: rest ->
  msg_tool_calls (message choice0) = Some (tc :: tc' :: tcs) ->
  json_loads (fn_arguments (tc_function tc)) = Some (PyDict kw) ->
  handlers !! fn_name (tc_function tc) = Some f ->
  bind_arguments (fn_params f) kw = None ->
  fn_body f kw w1 = (w2, inr result) ->
  let r := run ui topic is_log (mkState w h) in
  let req2 :=
    mkCreateArgs GPT_MODEL
      [DictMessage "system" (system_message topic) None;
       DictMessage "user" ui None;
       ResponseMessage (message choice0);
       DictMessage "tool" result (Some (tc_id tc))]
      None None in
  handler_calls (events r) = [(fn_name (tc_function tc), kw)]
  /\ completion_calls (events r) = [first_request ui topic; req2]
  /\ outcome r = match snd (client_create req2 w2) with
                 | inl e => Raised e
                 | inr second_response =>
                     match choices second_response with
                     | [] => Raised IndexError
                     | choice0' :: _ => Returned (msg_content (message choice0'))
                     end
                 end.
Proof.
  intros Hcall Hchoices Htool Hjson Hget Hbind Hbody. cbv zeta. run_along.
  unfold initial_conversation. cbn [app].
  destruct (client_create _ w2) as [w3 res3]. cbn [snd].
  destruct is_log; observe; auto.
Qed.

(** C6: an exception that the completion service or a handler raises
    during a run is the exception the run raises, and the failed call is
    the last thing the run did: nothing is retried and no value is
    returned in its place. *)
Theorem external_exception_propagates ui topic is_log s ev e :
  ev ∈ events (run ui topic is_log s) ->
  raised_by ev = Some e ->
  outcome (run ui topic is_log s) = Raised e
  /\ last (events (run ui topic is_log s)) = Some ev.
Proof.
  destruct s as [w h]. run_cases; observe; intros Hin Hraised.
  all: repeat (apply elem_of_cons in Hin as [->|Hin]);
    try (by apply elem_of_nil in Hin);
    cbn [raised_by] in Hraised; try discriminate Hraised.
  all: injection Hraised as ->; split; reflexivity.
Qed.

(** C7: a run starts from a new list holding the system turn and the
    user turn, and that is what its first completion call carries; list
    objects that were in the store before, such as the conversation of
    an earlier run, are neither read nor changed: a run that follows
    another does, returns and leaves the world as it would with an empty
    store, and only adds its own conversation to the store. *)
Theorem conversation_built_from_scratch ui0 topic0 is_log0 s0 ui topic is_log :
  let r0 := run ui0 topic0 is_log0 s0 in
  let r := run ui topic is_log (final r0) in
  let r_fresh := run ui topic is_log (mkState (world (final r0)) []) in
  (exists res rest,
      events r =
      CompletionCall
        (mkCreateArgs GPT_MODEL
           [DictMessage "system" (system_message topic) None;
            DictMessage "user" ui None]
           (Some functions) (Some "auto"))
        res :: rest)
  /\ events r = events r_fresh
  /\ outcome r = outcome r_fresh
  /\ world (final r) = world (final r_fresh)
  /\ exists conv, heap (final r) = heap (final r0) ++ [conv].
Proof.
  cbv zeta. destruct (final (run ui0 topic0 is_log0 s0)) as [w h].
  cbn [world]. run_cases; observe; unfold first_request, initial_conversation.
  all: repeat split; eauto.
Qed.

(** C8: with a stubbed completion service that leaves the world alone
    and answers the first request of every run by selecting the same
    handler, two runs on the same input execute the handler body twice,
    once per run, and the world has undergone its effect twice. *)
Theorem rerun_repeats_side_effect
    ui topic is_log s response choice0 rest tc tcs kw f :
  (forall req w, fst (client_create req w) = w) ->
  (forall w, snd (client_create (first_request ui topic) w) = inr response) ->
  choices response = choice0 :: rest ->
  msg_tool_calls (message choice0) = Some (tc :: tcs) ->
  json_loads (fn_arguments (tc_function tc)) = Some (PyDict kw) ->
  handlers !! fn_name (tc_function tc) = Some f ->
  bind_arguments (fn_params f) kw = None ->
  let r1 := run ui topic is_log s in
  let r2 := run ui topic is_log (final r1) in
  let effect := fun w => fst (fn_body f kw w) in
  handler_calls (events r1) = [(fn_name (tc_function tc), kw)]
  /\ handler_calls (events r2) = [(fn_name (tc_function tc), kw)]
  /\ world (final r2) = effect (effect (world s)).
Proof.
  intros Hpure Hselect Hchoices Htool Hjson Hget Hbind. cbv zeta.
  assert (Hfirst : forall w, client_create (first_request ui topic) w = (w, inr response)).
  { intros w. specialize (Hpure (first_request ui topic) w).
    specialize (Hselect w).
    destruct (client_create (first_request ui topic) w) as [w' res].
    cbn in Hpure, Hselect. by subst. }
  assert (Hrun : forall w h,
    let r := run ui topic is_log (mkState w h) in
    handler_calls (events r) = [(fn_name (tc_function tc), kw)]
    /\ world (final r) = fst (fn_body f kw w)).
  { intros w h. cbv zeta. rewrite run_conversation_eq. cbv zeta.
    rewrite Hfirst. cbv beta iota. rewrite Hchoices, Htool, Hjson, Hget, Hbind.
    destruct (fn_body f kw w) as [w2 [e|result]]; cbn [fst].
    - destruct is_log; observe; auto.
    - match goal with
      | |- context [client_create ?req w2] =>
          pose proof (Hpure req w2) as Hw; destruct (client_create req w2) as [w3 res3]
      end.
      cbn [fst] in Hw. subst w3.
      destruct is_log; observe; auto. }
  destruct s as [w h]. cbn [world].
  destruct (Hrun w h) as [Hcalls1 Hworld1].
  destruct (final (run ui topic is_log (mkState w h))) as [w' h'] eqn:Hfinal.
  cbn [world] in Hworld1. subst w'.
  destruct (Hrun (fst (fn_body f kw w)) h') as [Hcalls2 Hworld2].
  auto.
Qed.

End Facts.

(** * The theorems at concrete inputs *)

(** The amended C1 on the stubs: [list_buckets] is selected and returns. *)
Lemma tool_path_two_completions_one_handler_witness :
  calls (events (Stub.run (Stub.selecting [Stub.tool_call "call_1" "list_buckets" "{}"])
                          "list my S3 buckets"))
  = [Completion; Handler; Completion].
Proof.
  unfold Stub.run, Stub.start.
  eapply (tool_path_two_completions_one_handler
            (Stub.selecting [Stub.tool_call "call_1" "list_buckets" "{}"])
            Stub.json_loads Stub.registry "list my S3 buckets" default_topic false 0 []
            0 (Stub.tool_reply [Stub.tool_call "call_1" "list_buckets" "{}"])
            (mkChoice (mkMessage None (Some [Stub.tool_call "call_1" "list_buckets" "{}"])))
            [] (Stub.tool_call "call_1" "list_buckets" "{}") [] []
            (list_buckets (Stub.counting "[]")) 1 "[]");
    reflexivity.
Defined.

(** C1 as stated fails: each of these first responses carries a tool
    invocation, and the run makes one completion call only, with no
    handler call (unknown name, arguments that are not JSON, arguments
    that are not an object, arguments the signature refuses) or with a
    handler call that raises. *)
Lemma tool_invocation_without_second_completion :
  let calls_of tc := calls (events (Stub.run (Stub.selecting [tc]) "do it")) in
  let first_response_of tc :=
    hd_error (events (Stub.run (Stub.selecting [tc]) "do it")) in
  let selected tc :=
    Some (CompletionCall (first_request "do it" default_topic)
                         (inr (Stub.tool_reply [tc]))) in
  let unknown := Stub.tool_call "call_1" "delete_bucket" "{}" in
  let not_json := Stub.tool_call "call_1" "list_buckets" "{" in
  let not_object := Stub.tool_call "call_1" "list_buckets" "[]" in
  let refused := Stub.tool_call "call_1" "download_file" "{}" in
  let failing := Stub.tool_call "call_1" "list_buckets" "{}" in
  (first_response_of unknown = selected unknown
   /\ calls_of unknown = [Completion]
   /\ calls_of unknown <> [Completion; Handler; Completion])
  /\ (first_response_of not_json = selected not_json /\ calls_of not_json = [Completion])
  /\ (first_response_of not_object = selected not_object
      /\ calls_of not_object = [Completion])
  /\ (first_response_of refused = selected refused /\ calls_of refused = [Completion])
  /\ (hd_error (events (Stub.run_broken (Stub.selecting [failing]) "do it"))
      = selected failing
      /\ calls (events (Stub.run_broken (Stub.selecting [failing]) "do it"))
         = [Completion; Handler]).
Proof.
  cbv zeta. repeat split; try reflexivity.
  vm_compute. discriminate.
Qed.

(** C2 on the stubs: the model answers in plain text. *)
Lemma no_tool_single_completion_witness :
  let r := Stub.run (Stub.chatting "Which bucket?") "search for a file" in
  completion_calls (events r) = [first_request "search for a file" default_topic]
  /\ handler_calls (events r) = []
  /\ outcome r = Returned (Some "Which bucket?").
Proof.
  unfold Stub.run, Stub.start.
  eapply (no_tool_single_completion (Stub.chatting "Which bucket?")
            Stub.json_loads Stub.registry "search for a file" default_topic false 0 []
            0 (Stub.text_reply "Which bucket?")
            (mkChoice (mkMessage (Some "Which bucket?") None)) []);
    [reflexivity | reflexivity | left; reflexivity].
Defined.

(** C4 on the stubs: the model names a tool the registry lacks. *)
Lemma unknown_tool_raises_witness :
  let r := Stub.run (Stub.selecting [Stub.tool_call "call_1" "delete_bucket" "{}"])
                    "delete my bucket" in
  outcome r = Raised (KeyError "delete_bucket")
  /\ completion_calls (events r) = [first_request "delete my bucket" default_topic]
  /\ handler_calls (events r) = [].
Proof.
  unfold Stub.run, Stub.start.
  eapply (unknown_tool_raises
            (Stub.selecting [Stub.tool_call "call_1" "delete_bucket" "{}"])
            Stub.json_loads Stub.registry "delete my bucket" default_topic false 0 []
            0 (Stub.tool_reply [Stub.tool_call "call_1" "delete_bucket" "{}"])
            (mkChoice (mkMessage None (Some [Stub.tool_call "call_1" "delete_bucket" "{}"])))
            [] (Stub.tool_call "call_1" "delete_bucket" "{}") []);
    reflexivity.
Defined.

(** C5 on the stubs: what the second completion call carries, and what the
    run returns. *)
Lemma second_request_updated_conversation_witness :
  let tc := Stub.tool_call "call_1" "list_buckets" "{}" in
  let r := Stub.run (Stub.selecting [tc]) "list my S3 buckets" in
  let req2 :=
    mkCreateArgs GPT_MODEL
      [DictMessage "system" (system_message default_topic) None;
       DictMessage "user" "list my S3 buckets" None;
       ResponseMessage (mkMessage None (Some [tc]));
       DictMessage "tool" "[]" (Some "call_1")]
      None None in
  completion_calls (events r) = [first_request "list my S3 buckets" default_topic; req2]
  /\ outcome r = Returned (Some "summary").
Proof.
  cbv zeta. unfold Stub.run, Stub.start.
  destruct (second_request_updated_conversation
              (Stub.selecting [Stub.tool_call "call_1" "list_buckets" "{}"])
              Stub.json_loads Stub.registry "list my S3 buckets" default_topic false 0 []
              0 (Stub.tool_reply [Stub.tool_call "call_1" "list_buckets" "{}"])
              (mkChoice (mkMessage None (Some [Stub.tool_call "call_1" "list_buckets" "{}"])))
              [] (Stub.tool_call "call_1" "list_buckets" "{}") [] []
              (list_buckets (Stub.counting "[]")) 1 "[]"
              eq_refl eq_refl eq_refl eq_refl eq_refl eq_refl eq_refl)
    as [Hcalls Hreturn].
  split.
  - exact Hcalls.
  - exact (Hreturn 1 (Stub.text_reply "summary")
                   (mkChoice (mkMessage (Some "summary") None)) [] eq_refl eq_refl).
Defined.

(** C6 on the stubs: S3 is down, and the handler's exception is the run's. *)
Lemma external_exception_propagates_witness :
  let e := ExternalError "EndpointConnectionError" "s3" in
  let r := Stub.run_broken (Stub.selecting [Stub.tool_call "call_1" "list_buckets" "{}"])
                           "list my S3 buckets" in
  outcome r = Raised e
  /\ last (events r) = Some (HandlerCall "list_buckets" [] (inl e)).
Proof.
  cbv zeta. unfold Stub.run_broken.
  apply (external_exception_propagates
           (Stub.selecting [Stub.tool_call "call_1" "list_buckets" "{}"])
           Stub.json_loads Stub.broken_registry "list my S3 buckets" default_topic false
           Stub.start
           (HandlerCall "list_buckets" []
                        (inl (ExternalError "EndpointConnectionError" "s3")))
           (ExternalError "EndpointConnectionError" "s3")).
  - vm_compute. apply list_elem_of_further, list_elem_of_here.
  - reflexivity.
Defined.

(** C8 on the stubs: the handler counts its runs, and two runs on the same
    input leave the counter at two. *)
Lemma rerun_repeats_side_effect_witness :
  let service := Stub.selecting [Stub.tool_call "call_1" "list_buckets" "{}"] in
  let r1 := Stub.run service "list my S3 buckets" in
  let r2 := run_conversation service Stub.json_loads Stub.registry
                             "list my S3 buckets" default_topic false (final r1) in
  handler_calls (events r1) = [("list_buckets", [])]
  /\ handler_calls (events r2) = [("list_buckets", [])]
  /\ world (final r2) = 2.
Proof.
  cbv zeta. unfold Stub.run.
  apply (rerun_repeats_side_effect
           (Stub.selecting [Stub.tool_call "call_1" "list_buckets" "{}"])
           Stub.json_loads Stub.registry "list my S3 buckets" default_topic false
           Stub.start
           (Stub.tool_reply [Stub.tool_call "call_1" "list_buckets" "{}"])
           (mkChoice (mkMessage None (Some [Stub.tool_call "call_1" "list_buckets" "{}"])))
           [] (Stub.tool_call "call_1" "list_buckets" "{}") [] []
           (list_buckets (Stub.counting "[]"))).
  - intros req w. unfold Stub.selecting. destruct (tools req); reflexivity.
  - intros w. reflexivity.
  - reflexivity.
  - reflexivity.
  - reflexivity.
  - reflexivity.
  - reflexivity.
Defined.

(** C9 on the stubs: the second invocation names an unknown tool with
    arguments that are not JSON, and nothing comes of it. *)
Lemma only_first_invocation_dispatched_witness :
  let tc := Stub.tool_call "call_1" "list_buckets" "{}" in
  let tc' := Stub.tool_call "call_2" "delete_bucket" "{" in
  let r := Stub.run (Stub.selecting [tc; tc']) "list and delete" in
  let req2 :=
    mkCreateArgs GPT_MODEL
      [DictMessage "system" (system_message default_topic) None;
       DictMessage "user" "list and delete" None;
       ResponseMessage (mkMessage None (Some [tc; tc']));
       DictMessage "tool" "[]" (Some "call_1")]
      None None in
  handler_calls (events r) = [("list_buckets", [])]
  /\ completion_calls (events r) = [first_request "list and delete" default_topic; req2]
  /\ outcome r = Returned (Some "summary").
Proof.
  cbv zeta. unfold Stub.run, Stub.start.
  apply (only_first_invocation_dispatched
           (Stub.selecting [Stub.tool_call "call_1" "list_buckets" "{}";
                            Stub.tool_call "call_2" "delete_bucket" "{"])
           Stub.json_loads Stub.registry "list and delete" default_topic false 0 []
           0 (Stub.tool_reply [Stub.tool_call "call_1" "list_buckets" "{}";
                               Stub.tool_call "call_2" "delete_bucket" "{"])
           (mkChoice (mkMessage None (Some [Stub.tool_call "call_1" "list_buckets" "{}";
                                            Stub.tool_call "call_2" "delete_bucket" "{"])))
           [] (Stub.tool_call "call_1" "list_buckets" "{}")
           (Stub.tool_call "call_2" "delete_bucket" "{") [] []
           (list_buckets (Stub.counting "[]")) 1 "[]");
    reflexivity.
Defined.

(** C10 on the stubs: the arguments are not JSON, and the counter of side
    effects stays at zero. *)
Lemma bad_json_no_handler_witness :
  let r := Stub.run (Stub.selecting [Stub.tool_call "call_1" "list_buckets" "{"])
                    "list my S3 buckets" in
  outcome r = Raised (JSONDecodeError "{")
  /\ handler_calls (events r) = []
  /\ completion_calls (events r) = [first_request "list my S3 buckets" default_topic]
  /\ world (final r) = 0.
Proof.
  cbv zeta. unfold Stub.run, Stub.start.
  apply (bad_json_no_handler
           (Stub.selecting [Stub.tool_call "call_1" "list_buckets" "{"])
           Stub.json_loads Stub.registry "list my S3 buckets" default_topic false 0 []
           0 (Stub.tool_reply [Stub.tool_call "call_1" "list_buckets" "{"])
           (mkChoice (mkMessage None (Some [Stub.tool_call "call_1" "list_buckets" "{"])))
           [] (Stub.tool_call "call_1" "list_buckets" "{") []);
    reflexivity.
Defined.

(** * Further properties of the dispatch loop *)

Section Binding.

Lemma existsb_eqb_elem_of (k : string) (l : list string) :
  existsb (String.eqb k) l = true <-> k ∈ l.
Proof.
  rewrite existsb_exists. split.
  - intros (x & Hin & Heq). apply String.eqb_eq in Heq as ->.
    by apply list_elem_of_In.
  - intros Hin. exists k. split; [by apply list_elem_of_In | apply String.eqb_refl].
Qed.

Lemma filter_nil_iff {A} (p : A -> bool) (l : list A) :
  List.filter p l = [] <-> forall x, x ∈ l -> p x = false.
Proof.
  induction l as [|a l IH]; cbn [List.filter].
  - split; [intros _ x Hx; by apply elem_of_nil in Hx | done].
  - destruct (p a) eqn:Hpa.
    + split; [done | intros H; specialize (H a (list_elem_of_here _ _)); congruence].
    + rewrite IH. split.
      * intros H x Hx. apply elem_of_cons in Hx as [->|Hx]; auto.
      * intros H x Hx. apply H. by apply list_elem_of_further.
Qed.

Lemma unexpected_nil_iff (ps : list Param) (kw : Kwargs) :
  unexpected ps kw = [] <-> forall k, k ∈ kw.*1 -> k ∈ ps.*1.
Proof.
  unfold unexpected. rewrite filter_nil_iff. unfold is_param.
  split; intros H k Hk; specialize (H k Hk).
  - apply negb_false_iff in H. by apply existsb_eqb_elem_of.
  - apply negb_false_iff. by apply existsb_eqb_elem_of.
Qed.

Lemma missing_nil_iff (ps : list Param) (kw : Kwargs) :
  missing ps kw = [] <-> forall p, (p, false) ∈ ps -> p ∈ kw.*1.
Proof.
  unfold missing.
  transitivity (List.filter (fun p : Param => negb (snd p) && negb (has_key (fst p) kw)) ps = []).
  { split; [apply fmap_nil_inv | by intros ->]. }
  rewrite filter_nil_iff. unfold has_key.
  split.
  - intros H p Hp. specialize (H (p, false) Hp). cbn in H.
    apply negb_false_iff in H. by apply existsb_eqb_elem_of.
  - intros H [p [|]] Hp; cbn; [done|].
    apply negb_false_iff, existsb_eqb_elem_of. auto.
Qed.

Lemma bind_arguments_accepted (ps : list Param) (kw : Kwargs) :
  (forall k, k ∈ kw.*1 -> k ∈ ps.*1) ->
  (forall p, (p, false) ∈ ps -> p ∈ kw.*1) ->
  bind_arguments ps kw = None.
Proof.
  intros Hu Hm. unfold bind_arguments.
  apply unexpected_nil_iff in Hu as ->. by apply missing_nil_iff in Hm as ->.
Qed.


(** A schema that declares no property outside the signature and requires
    every parameter without a default admits only calls that bind. *)
Lemma conforms_binds (spec : PyValue) (ps : list Param) (kw : Kwargs) :
  forallb (fun k => is_param ps k) (declared_properties spec) = true ->
  forallb (fun p : Param => snd p || existsb (String.eqb (fst p)) (declared_required spec))
          ps = true ->
  conforms spec kw = true ->
  bind_arguments ps kw = None.
Proof.
  intros Hprops Hreq Hconf.
  unfold conforms in Hconf. apply andb_true_iff in Hconf as [Hkeys Hgiven].
  rewrite forallb_forall in Hkeys, Hgiven, Hprops, Hreq.
  apply bind_arguments_accepted.
  - intros k Hk. apply existsb_eqb_elem_of, (Hprops k).
    apply list_elem_of_In, existsb_eqb_elem_of, Hkeys. by apply list_elem_of_In.
  - intros p Hp. apply existsb_eqb_elem_of. apply (Hgiven p).
    apply list_elem_of_In, existsb_eqb_elem_of.
    apply list_elem_of_In in Hp. apply Hreq in Hp. exact Hp.
Qed.

End Binding.

Section Paths.

Context {W : Type}.
Variable client_create : CreateArgs -> W -> W * (PyExc + ChatCompletion).
Variable json_loads : string -> option PyValue.
Variable handlers : gmap string (@PyFunction W).

Local Abbreviation run := (run_conversation client_create json_loads handlers).

Ltac all_paths :=
  rewrite ?run_conversation_eq; cbv zeta;
  repeat match goal with
         | |- context [match ?x with _ => _ end] => destruct x eqn:?
         end.

Ltac this_path :=
  rewrite ?run_conversation_eq; cbv zeta;
  repeat match goal with
         | H : _ = _ |- _ => rewrite H; cbv beta iota
         end.

Ltac read_log :=
  cbn [events outcome final world heap calls completion_calls handler_calls
       without_prints app length].

(** X1: [is_log] only adds what is printed: with and without it a run makes
    the same external calls with the same results, ends in the same state
    with the same outcome, and prints at most once. *)
Theorem logging_only_observes ui topic s :
  let r := run ui topic false s in
  let r_log := run ui topic true s in
  outcome r_log = outcome r
  /\ final r_log = final r
  /\ without_prints (events r_log) = events r
  /\ length (events r_log) <= S (length (events r)).
Proof.
  destruct s as [w h]. cbv zeta. all_paths; read_log; auto with lia.
Qed.

(** X2: Arguments that decode to something other than an object (a list, a
    number, a string, null) are refused with a [TypeError] when they are
    unpacked: the handler does not run and no second completion call is
    made. *)
Theorem non_object_arguments_refused
    ui topic is_log w h w1 response choice0 rest tc tcs v f :
  client_create (first_request ui topic) w = (w1, inr response) ->
  choices response = choice0 :: rest ->
  msg_tool_calls (message choice0) = Some (tc :: tcs) ->
  json_loads (fn_arguments (tc_function tc)) = Some v ->
  (forall kw, v <> PyDict kw) ->
  handlers !! fn_name (tc_function tc) = Some f ->
  let r := run ui topic is_log (mkState w h) in
  outcome r = Raised (TypeError NotAMapping)
  /\ calls (events r) = [Completion]
  /\ world (final r) = w1.
Proof.
  intros Hcall Hchoices Htool Hjson Hv Hget. cbv zeta. this_path.
  destruct v; try (destruct is_log; read_log; by auto).
  by destruct (Hv d).
Qed.

(** X3: Arguments that the handler's signature does not accept are refused
    with the [TypeError] of the binding: the body of the handler does not
    run, so the world is as the first completion call left it. *)
Theorem refused_arguments_skip_body
    ui topic is_log w h w1 response choice0 rest tc tcs kw f e :
  client_create (first_request ui topic) w = (w1, inr response) ->
  choices response = choice0 :: rest ->
  msg_tool_calls (message choice0) = Some (tc :: tcs) ->
  json_loads (fn_arguments (tc_function tc)) = Some (PyDict kw) ->
  handlers !! fn_name (tc_function tc) = Some f ->
  bind_arguments (fn_params f) kw = Some e ->
  let r := run ui topic is_log (mkState w h) in
  outcome r = Raised e
  /\ calls (events r) = [Completion]
  /\ world (final r) = w1.
Proof.
  intros Hcall Hchoices Htool Hjson Hget Hbind. cbv zeta. this_path.
  destruct is_log; read_log; auto.
Qed.

(** X4: A first response without choices makes the run raise [IndexError]
    right after the completion call: nothing is printed, even with
    [is_log], and nothing is dispatched. *)
Theorem empty_choices_index_error ui topic is_log w h w1 response :
  client_create (first_request ui topic) w = (w1, inr response) ->
  choices response = [] ->
  let r := run ui topic is_log (mkState w h) in
  outcome r = Raised IndexError
  /\ events r = [CompletionCall (first_request ui topic) (inr response)].
Proof.
  intros Hcall Hchoices. cbv zeta. this_path. auto.
Qed.

(** X5: When the second response has no choices the run raises [IndexError]
    although the handler has run: its call is in the log, and the world
    the run ends in is the one the second completion call made of the
    world the handler left. *)
Theorem empty_second_choices_after_handler
    ui topic is_log w h w1 response choice0 rest tc tcs kw f w2 result
    w3 second_response :
  client_create (first_request ui topic) w = (w1, inr response) ->
  choices response = choice0 :: rest ->
  msg_tool_calls (message choice0) = Some (tc :: tcs) ->
  json_loads (fn_arguments (tc_function tc)) = Some (PyDict kw) ->
  handlers !! fn_name (tc_function tc) = Some f ->
  bind_arguments (fn_params f) kw = None ->
  fn_body f kw w1 = (w2, inr result) ->
  client_create
    (mkCreateArgs GPT_MODEL
       (initial_conversation ui topic
        ++ [ResponseMessage (message choice0);
            DictMessage "tool" result (Some (tc_id tc))])
       None None) w2
  = (w3, inr second_response) ->
  choices second_response = [] ->
  let r := run ui topic is_log (mkState w h) in
  outcome r = Raised IndexError
  /\ handler_calls (events r) = [(fn_name (tc_function tc), kw)]
  /\ world (final r) = w3.
Proof.
  intros Hcall Hchoices Htool Hjson Hget Hbind Hbody Hcall2 Hchoices2.
  cbv zeta. this_path. destruct is_log; read_log; auto.
Qed.

(** X6: Every completion call of a run names the model [GPT_MODEL], starts
    with the system turn and the user turn of this run, and either offers
    the whole [functions] list with tool choice ["auto"] or offers no
    tools and sets no tool choice. *)
Theorem requests_well_formed ui topic is_log s req :
  req ∈ completion_calls (events (run ui topic is_log s)) ->
  model req = GPT_MODEL
  /\ take 2 (messages req) = initial_conversation ui topic
  /\ ((tools req = Some functions /\ tool_choice req = Some "auto")
      \/ (tools req = None /\ tool_choice req = None)).
Proof.
  destruct s as [w h]. all_paths; read_log; intros Hin.
  all: repeat (apply elem_of_cons in Hin as [->|Hin]);
    try (by apply elem_of_nil in Hin).
  all: unfold first_request; cbn [model messages tools tool_choice];
    repeat split; auto.
Qed.

End Paths.

(** * The declared schemas and the registry agree *)

Section Schemas.

Context {W : Type}.
Variables list_buckets_body list_objects_body download_file_body
          upload_file_body search_s3_objects_body
  : Kwargs -> W -> W * (PyExc + string).

Local Abbreviation registry :=
  (available_functions list_buckets_body list_objects_body download_file_body
                       upload_file_body search_s3_objects_body).

(** X8: The names the registry resolves are exactly the names that
    [functions] declares to the model. *)
Theorem registry_names_declared (name : string) :
  is_Some (registry !! name) <-> name ∈ omap declared_name functions.
Proof.
  unfold available_functions.
  rewrite <- (elem_of_dom (D := gset string)), dom_list_to_map_L.
  cbn [fmap list_fmap fst]. rewrite elem_of_list_to_set.
  reflexivity.
Qed.

(** X9: When the model selects a declared function with an arguments object
    that conforms to the declared schema, the registry resolves the name,
    the signature of the handler accepts the arguments, and the run
    executes the handler once with exactly these arguments. *)
Theorem conforming_call_reaches_handler
    (client_create : CreateArgs -> W -> W * (PyExc + ChatCompletion))
    (json_loads : string -> option PyValue)
    ui topic is_log w h w1 response choice0 rest tc tcs kw spec :
  client_create (first_request ui topic) w = (w1, inr response) ->
  choices response = choice0 :: rest ->
  msg_tool_calls (message choice0) = Some (tc :: tcs) ->
  json_loads (fn_arguments (tc_function tc)) = Some (PyDict kw) ->
  spec ∈ functions ->
  declared_name spec = Some (fn_name (tc_function tc)) ->
  conforms spec kw = true ->
  (exists f, registry !! fn_name (tc_function tc) = Some f
             /\ bind_arguments (fn_params f) kw = None)
  /\ handler_calls
       (events (run_conversation client_create json_loads registry ui topic is_log
                                 (mkState w h)))
     = [(fn_name (tc_function tc), kw)].
Proof.
  intros Hcall Hchoices Htool Hjson Hspec Hname Hconf.
  assert (Hf : exists f, registry !! fn_name (tc_function tc) = Some f
                         /\ bind_arguments (fn_params f) kw = None).
  { unfold functions in Hspec.
    repeat (apply elem_of_cons in Hspec as [->|Hspec]);
      [..|by apply elem_of_nil in Hspec];
      injection Hname as <-.
    - exists (list_buckets list_buckets_body). split; [reflexivity|].
      refine (conforms_binds _ _ _ _ _ Hconf); reflexivity.
    - exists (list_objects list_objects_body). split; [reflexivity|].
      refine (conforms_binds _ _ _ _ _ Hconf); reflexivity.
    - exists (download_file download_file_body). split; [reflexivity|].
      refine (conforms_binds _ _ _ _ _ Hconf); reflexivity.
    - exists (upload_file upload_file_body). split; [reflexivity|].
      refine (conforms_binds _ _ _ _ _ Hconf); reflexivity.
    - exists (search_s3_objects search_s3_objects_body). split; [reflexivity|].
      refine (conforms_binds _ _ _ _ _ Hconf); reflexivity. }
  split; [exact Hf|].
  destruct Hf as (f & Hget & Hbind).
  rewrite run_conversation_eq. cbv zeta.
  rewrite Hcall. cbv beta iota. rewrite Hchoices. cbv beta iota.
  rewrite Htool, Hjson, Hget, Hbind.
  destruct (fn_body f kw w1) as [w2 [e|result]].
  - destruct is_log; reflexivity.
  - match goal with
    | |- context [client_create ?req w2] => destruct (client_create req w2) as [w3 res3]
    end.
    destruct is_log; reflexivity.
Qed.

End Schemas.

(** * The S3 helpers *)

Section HelperFacts.

Import S3.

Context {W : Type}.
Variable s3_list_buckets : W -> W * (PyError + list (string * BotoValue)).
Variable s3_list_objects_v2 :
  PyValue -> PyValue -> W -> W * (PyError + list (string * BotoValue)).
Variable s3_download_file : PyValue -> PyValue -> string -> W -> W * (PyError + unit).
Variable s3_upload_file : PyValue -> PyValue -> PyValue -> W -> W * (PyError + unit).
Variable urlretrieve : PyValue -> string -> W -> W * (PyError + unit).
Variable json_dumps_default : (BotoValue -> PyError + string) -> BotoValue -> PyError + string.
Variable json_dumps : PyValue -> string.
Variable json_loads : string -> option PyValue.
Variable str_lower : string -> string.
Variable characters : string -> list string.
Variable float_is_zero : string -> bool.
Variable basename : string -> string.
Variable join : string -> string -> string.

Local Abbreviation search :=
  (S3.search_s3_objects s3_list_buckets s3_list_objects_v2 json_dumps_default
                        json_dumps json_loads str_lower characters float_is_zero).
Local Abbreviation loop :=
  (S3.search_buckets s3_list_objects_v2 json_dumps_default json_loads str_lower
                     characters float_is_zero).
Local Abbreviation listing := (S3.list_objects s3_list_objects_v2 json_dumps_default).
Local Abbreviation pick := (S3.select str_lower).
Local Abbreviation true_for := (S3.truthy float_is_zero).

(** *** Comprehensions *)

Lemma prefix_refl (s : string) : String.prefix s s = true.
Proof.
  induction s as [|c s IH]; [reflexivity|].
  cbn. destruct (Ascii.ascii_dec c c); [exact IH | congruence].
Qed.

Lemma equal_is_substring (a b : string) :
  String.eqb a b = true -> is_substring a b = true.
Proof.
  intros Heq. apply String.eqb_eq in Heq as <-.
  destruct a; cbn [is_substring]; by rewrite prefix_refl.
Qed.

Lemma select_weaker (t1 t2 : string -> bool) (objs hits1 : list PyValue) :
  (forall k, t1 k = true -> t2 k = true) ->
  pick t1 objs = inr hits1 ->
  exists hits2, pick t2 objs = inr hits2 /\ sublist hits1 hits2.
Proof.
  intros Himp. revert hits1.
  induction objs as [|obj objs IH]; intros hits1; cbn [select].
  - intros [= <-]. exists []. split; [reflexivity | constructor].
  - destruct (getitem obj "Key") as [e|key]; [discriminate|].
    destruct (lower str_lower key) as [e|kl]; [discriminate|].
    destruct (pick t1 objs) as [e|h1]; [discriminate|].
    destruct (IH h1 eq_refl) as (h2 & -> & Hsub).
    intros [= <-]. eexists. split; [reflexivity|].
    destruct (t1 kl) eqn:E1.
    + rewrite (Himp _ E1). by constructor.
    + destruct (t2 kl); [by constructor | exact Hsub].
Qed.

Lemma select_filter (test : string -> bool) (objs : list PyValue) :
  Forall (fun obj => is_Some (key_lower str_lower obj)) objs ->
  pick test objs
  = inr (List.filter (fun obj => match key_lower str_lower obj with
                                 | Some k => test k
                                 | None => false
                                 end) objs).
Proof.
  induction 1 as [|obj objs [k Hk] _ IH]; cbn [select List.filter]; [reflexivity|].
  rewrite IH, Hk. unfold key_lower in Hk.
  destruct (getitem obj "Key") as [e|[]]; try discriminate.
  cbn [lower]. injection Hk as ->. reflexivity.
Qed.

Lemma extend_results (f : PyValue -> PyValue) (results hits : list PyValue) :
  match hits with
  | [] => results
  | _ => results ++ (f <$> hits)
  end = results ++ (f <$> hits).
Proof. destruct hits; cbn; by rewrite ?app_nil_r. Qed.

(** *** One bucket *)

Local Abbreviation hits_in :=
  (S3.bucket_results s3_list_objects_v2 json_dumps_default json_loads str_lower
                     characters float_is_zero).

Lemma bucket_results_requests n prefix exact b w :
  requests (hits_in n prefix exact b w) = [ListObjectsV2 b prefix].
Proof.
  unfold bucket_results, list_objects, bind, request, lift, loads, ret.
  destruct (s3_list_objects_v2 b prefix w) as [w1 [e|response]]; [reflexivity|].
  destruct (json_dumps_default _ _) as [e|doc]; [reflexivity|].
  destruct (json_loads doc) as [v|]; [|reflexivity].
  destruct (iterate characters v) as [e|objs]; [reflexivity|].
  destruct (if true_for exact then _ else _); reflexivity.
Qed.

Lemma bucket_results_eq n prefix exact b w w1 response doc v objs :
  s3_list_objects_v2 b prefix w = (w1, inr response) ->
  json_dumps_default datetime_converter
    (default (BList []) (lookup_item "Contents" response)) = inr doc ->
  json_loads doc = Some v ->
  iterate characters v = inr objs ->
  hits_in n prefix exact b w
  = mkStep w1 [ListObjectsV2 b prefix]
           (if true_for exact then pick (String.eqb n) objs
            else pick (is_substring n) objs).
Proof.
  intros Hs3 Hdumps Hloads Hiter.
  unfold bucket_results, list_objects, bind, request, lift, loads, ret.
  rewrite Hs3, Hdumps, Hloads, Hiter.
  destruct (if true_for exact then _ else _); reflexivity.
Qed.

(** Exact match finds a sublist of what partial match finds, from the
    same listing. *)
Lemma bucket_results_weaker n prefix yes no b w hits :
  true_for yes = true ->
  true_for no = false ->
  result (hits_in n prefix yes b w) = inr hits ->
  exists hits',
    hits_in n prefix no b w
    = mkStep (after (hits_in n prefix yes b w)) [ListObjectsV2 b prefix] (inr hits')
    /\ sublist hits hits'.
Proof.
  intros Hyes Hno.
  unfold bucket_results, list_objects, bind, request, lift, loads, ret.
  rewrite Hyes, Hno.
  destruct (s3_list_objects_v2 b prefix w) as [w1 [e|response]]; [discriminate|].
  destruct (json_dumps_default _ _) as [e|doc]; [discriminate|].
  destruct (json_loads doc) as [v|]; [|discriminate].
  destruct (iterate characters v) as [e|objs]; [discriminate|].
  destruct (pick (String.eqb n) objs) as [e|h] eqn:Hexact; [discriminate|].
  cbn. intros [= <-].
  destruct (select_weaker (String.eqb n) (is_substring n) objs h
              (equal_is_substring n) Hexact) as (h' & -> & Hsub).
  exists h'. split; [reflexivity | exact Hsub].
Qed.

(** *** The loop over the buckets *)

Lemma search_buckets_requests n prefix exact buckets results w out :
  result (loop n prefix exact buckets results w) = inr out ->
  requests (loop n prefix exact buckets results w)
  = (fun b => ListObjectsV2 b prefix) <$> buckets.
Proof.
  revert results w. induction buckets as [|b bs IH]; intros results w; [reflexivity|].
  cbn [search_buckets]. unfold bind.
  pose proof (bucket_results_requests n prefix exact b w) as Hrq.
  destruct (hits_in n prefix exact b w) as [w1 rq [e|hits]]; [discriminate|].
  cbn [requests] in Hrq. subst rq.
  specialize (IH (match hits with
                  | [] => results
                  | _ => results ++ (found b <$> hits)
                  end) w1).
  destruct (loop n prefix exact bs _ w1) as [w2 rq2 r].
  cbn [result requests] in *. intros Hr. rewrite (IH Hr). reflexivity.
Qed.

Lemma search_buckets_weaker n prefix yes no buckets results results' w out :
  true_for yes = true ->
  true_for no = false ->
  sublist results results' ->
  result (loop n prefix yes buckets results w) = inr out ->
  exists out',
    loop n prefix no buckets results' w
    = mkStep (after (loop n prefix yes buckets results w))
             (requests (loop n prefix yes buckets results w)) (inr out')
    /\ sublist out out'.
Proof.
  intros Hyes Hno. revert results results' w.
  induction buckets as [|b bs IH]; intros results results' w Hsub.
  - cbn. intros [= <-]. eauto.
  - cbn [search_buckets]. unfold bind.
    pose proof (bucket_results_requests n prefix yes b w) as Hrq.
    pose proof (bucket_results_weaker n prefix yes no b w) as Hweak.
    destruct (hits_in n prefix yes b w) as [w1 rq [e|hits]]; [discriminate|].
    cbn [requests result after] in Hrq, Hweak. subst rq.
    destruct (Hweak hits Hyes Hno eq_refl) as (hits' & -> & Hhits).
    rewrite !(extend_results (found b)).
    assert (Hnext : sublist (results ++ (found b <$> hits))
                            (results' ++ (found b <$> hits'))).
    { apply sublist_app; [exact Hsub | by apply fmap_sublist]. }
    specialize (IH _ _ w1 Hnext).
    destruct (loop n prefix yes bs _ w1) as [w2 rq2 r].
    cbn [result requests after] in *. intros Hr.
    destruct (IH Hr) as (out' & -> & Hout). eauto.
Qed.

(** *** [search_s3_objects] *)

(** X10: A search name that is not a string raises [AttributeError] on
    [lower] before any request to S3. *)
Theorem search_rejects_non_string name bucket prefix exact w :
  (forall n, name <> PyStr n) ->
  search name bucket prefix exact w
  = mkStep w [] (inl (AttributeError (type_name name) "lower")).
Proof.
  intros Hname. unfold search_s3_objects, bind, lift.
  destruct name; try reflexivity. by destruct (Hname s).
Qed.

(** X11: With a bucket given, the search lists that bucket and nothing else:
    one [list_objects_v2] request with the bucket and the prefix, and no
    [list_buckets] request, whether the search succeeds or not. *)
Theorem search_given_bucket_requests n bucket prefix exact w :
  bucket <> PyNone ->
  requests (search (PyStr n) bucket prefix exact w) = [ListObjectsV2 bucket prefix].
Proof.
  intros Hbucket. unfold search_s3_objects, bind, lift, ret. cbn [lower].
  assert (Hone : forall results,
    requests (loop (str_lower n) prefix exact [bucket] results w)
    = [ListObjectsV2 bucket prefix]).
  { intros results. cbn [search_buckets]. unfold bind, ret.
    pose proof (bucket_results_requests (str_lower n) prefix exact bucket w) as Hrq.
    destruct (hits_in _ prefix exact bucket w) as [w1 rq [e|hits]];
      cbn [requests] in *; subst rq; [reflexivity|].
    by rewrite app_nil_r. }
  specialize (Hone []).
  destruct bucket; try (by destruct Hbucket).
  all: unfold buckets_to_search, ret.
  all: destruct (loop _ prefix exact _ [] w) as [w2 rq2 [e|out]];
    cbn [requests] in *; subst rq2; reflexivity.
Qed.

Lemma search_one_bucket n bucket prefix exact w w1 response doc objs :
  bucket <> PyNone ->
  s3_list_objects_v2 bucket prefix w = (w1, inr response) ->
  json_dumps_default datetime_converter
    (default (BList []) (lookup_item "Contents" response)) = inr doc ->
  json_loads doc = Some (PyList objs) ->
  search (PyStr n) bucket prefix exact w
  = match (if true_for exact then pick (String.eqb (str_lower n)) objs
           else pick (is_substring (str_lower n)) objs) with
    | inl e => mkStep w1 [ListObjectsV2 bucket prefix] (inl e)
    | inr hits =>
        mkStep w1 [ListObjectsV2 bucket prefix]
               (inr (json_dumps (PyList (found bucket <$> hits))))
    end.
Proof.
  intros Hbucket Hs3 Hdumps Hloads.
  unfold search_s3_objects, bind, lift, ret. cbn [lower].
  assert (Hbuckets : buckets_to_search s3_list_buckets json_dumps_default json_loads
                                       characters bucket w = mkStep w [] (inr [bucket])).
  { destruct bucket; try reflexivity. by destruct Hbucket. }
  rewrite Hbuckets. cbn [search_buckets]. unfold bind, ret.
  rewrite (bucket_results_eq (str_lower n) prefix exact bucket w w1 response doc
             (PyList objs) objs Hs3 Hdumps Hloads eq_refl).
  destruct (if true_for exact then _ else _) as [e|hits]; [reflexivity|].
  rewrite (extend_results (found bucket)). reflexivity.
Qed.

(** X12: A search in one bucket returns, for the objects of the listing in
    their order, those whose lowered key equals the lowered search name
    (exact match) or contains it (otherwise), each paired with the
    bucket. *)
Theorem search_in_bucket n bucket prefix exact w w1 response doc objs :
  bucket <> PyNone ->
  s3_list_objects_v2 bucket prefix w = (w1, inr response) ->
  json_dumps_default datetime_converter
    (default (BList []) (lookup_item "Contents" response)) = inr doc ->
  json_loads doc = Some (PyList objs) ->
  Forall (fun obj => is_Some (key_lower str_lower obj)) objs ->
  let matches k :=
    if true_for exact then String.eqb (str_lower n) k
    else is_substring (str_lower n) k in
  search (PyStr n) bucket prefix exact w
  = mkStep w1 [ListObjectsV2 bucket prefix]
      (inr (json_dumps
              (PyList (found bucket
                       <$> List.filter (fun obj => match key_lower str_lower obj with
                                                   | Some k => matches k
                                                   | None => false
                                                   end) objs)))).
Proof.
  intros Hbucket Hs3 Hdumps Hloads Hkeys. cbv zeta.
  rewrite (search_one_bucket _ _ _ _ _ _ _ _ _ Hbucket Hs3 Hdumps Hloads).
  destruct (true_for exact); by rewrite select_filter.
Qed.

(** X13: A bucket without objects (a response without ["Contents"]) is no
    error: the search returns the encoding of the empty list. *)
Theorem search_empty_bucket n bucket prefix exact w w1 response doc :
  bucket <> PyNone ->
  s3_list_objects_v2 bucket prefix w = (w1, inr response) ->
  lookup_item "Contents" response = None ->
  json_dumps_default datetime_converter (BList []) = inr doc ->
  json_loads doc = Some (PyList []) ->
  search (PyStr n) bucket prefix exact w
  = mkStep w1 [ListObjectsV2 bucket prefix] (inr (json_dumps (PyList []))).
Proof.
  intros Hbucket Hs3 Hnone Hdumps Hloads.
  rewrite (search_one_bucket n bucket prefix exact w w1 response doc []
             Hbucket Hs3); [|by rewrite Hnone|exact Hloads].
  destruct (true_for exact); reflexivity.
Qed.

(** X15: Whatever the exact-match search finds, the partial-match search on
    the same state finds too: it makes the same requests, leaves the same
    state, and its results contain those of the exact search in order. *)
Theorem exact_hits_are_partial_hits name bucket prefix yes no w doc :
  true_for yes = true ->
  true_for no = false ->
  result (search name bucket prefix yes w) = inr doc ->
  exists exact partial,
    doc = json_dumps (PyList exact)
    /\ search name bucket prefix no w
       = mkStep (after (search name bucket prefix yes w))
                (requests (search name bucket prefix yes w))
                (inr (json_dumps (PyList partial)))
    /\ sublist exact partial.
Proof.
  intros Hyes Hno. unfold search_s3_objects, bind, lift, ret.
  destruct (lower str_lower name) as [e|n]; [discriminate|].
  destruct (buckets_to_search _ _ _ _ bucket w) as [w0 rq0 [e|buckets]]; [discriminate|].
  pose proof (search_buckets_weaker n prefix yes no buckets [] [] w0) as Hweak.
  destruct (loop n prefix yes buckets [] w0) as [w1 rq1 [e|out]]; [discriminate|].
  cbn [result after requests] in *. intros [= <-].
  destruct (Hweak out Hyes Hno (sublist_nil) eq_refl) as (out' & -> & Hsub).
  exists out, out'. rewrite !app_nil_r. auto.
Qed.

Lemma list_buckets_requests w :
  requests (S3.list_buckets s3_list_buckets json_dumps_default w) = [ListBuckets].
Proof.
  unfold list_buckets, bind, request, lift.
  destruct (s3_list_buckets w) as [w1 [e|response]]; [reflexivity|].
  destruct (lookup_item "Buckets" response); [|reflexivity].
  destruct (json_dumps_default _ _); reflexivity.
Qed.

(** X16: Without a bucket, a search that returns has asked S3 for the list of
    buckets once and then for the objects of every bucket, in the order
    of their names in the decoded list. *)
Theorem search_all_buckets_requests n prefix exact w doc :
  result (search (PyStr n) PyNone prefix exact w) = inr doc ->
  exists listing buckets_response infos names,
    result (S3.list_buckets s3_list_buckets json_dumps_default w) = inr listing
    /\ json_loads listing = Some buckets_response
    /\ iterate characters buckets_response = inr infos
    /\ collect (fun bucket_info => getitem bucket_info "Name") infos = inr names
    /\ requests (search (PyStr n) PyNone prefix exact w)
       = ListBuckets :: ((fun b => ListObjectsV2 b prefix) <$> names).
Proof.
  unfold search_s3_objects, buckets_to_search, loads, bind, lift, ret. cbn [lower].
  pose proof (list_buckets_requests w) as Hrq.
  destruct (list_buckets _ _ w) as [w0 rq0 [e|listing]]; [discriminate|].
  cbn [requests] in Hrq. subst rq0.
  destruct (json_loads listing) as [v|] eqn:Hloads; cbv beta iota; [|discriminate].
  destruct (iterate characters v) as [e|infos] eqn:Hiter; [discriminate|].
  destruct (collect _ infos) as [e|names] eqn:Hnames; [discriminate|].
  pose proof (search_buckets_requests (str_lower n) prefix exact names [] w0) as Hloop.
  destruct (loop _ prefix exact names [] w0) as [w1 rq1 [e|out]]; [discriminate|].
  cbn [result requests] in *. intros _.
  exists listing, v, infos, names. rewrite (Hloop out eq_refl).
  repeat split; try reflexivity; try assumption.
  by rewrite !app_nil_r.
Qed.

Lemma select_missing_key (test : string -> bool) (good rest : list PyValue)
    (d : list (string * PyValue)) :
  Forall (fun obj => is_Some (key_lower str_lower obj)) good ->
  lookup_item "Key" d = None ->
  pick test (good ++ PyDict d :: rest) = inl (Core (KeyError "Key")).
Proof.
  intros Hgood Hnone.
  induction Hgood as [|obj good [k Hk] _ IH]; cbn [app select].
  - cbn [getitem]. by rewrite Hnone.
  - rewrite IH. unfold key_lower in Hk.
    destruct (getitem obj "Key") as [e|[]]; try discriminate. reflexivity.
Qed.

(** X14: A listed object without a ["Key"] makes the search raise [KeyError],
    whatever the objects before and after it match: no results are
    returned. *)
Theorem search_object_without_key
    n bucket prefix exact w w1 response doc good d rest :
  bucket <> PyNone ->
  s3_list_objects_v2 bucket prefix w = (w1, inr response) ->
  json_dumps_default datetime_converter
    (default (BList []) (lookup_item "Contents" response)) = inr doc ->
  json_loads doc = Some (PyList (good ++ PyDict d :: rest)) ->
  Forall (fun obj => is_Some (key_lower str_lower obj)) good ->
  lookup_item "Key" d = None ->
  search (PyStr n) bucket prefix exact w
  = mkStep w1 [ListObjectsV2 bucket prefix] (inl (Core (KeyError "Key"))).
Proof.
  intros Hbucket Hs3 Hdumps Hloads Hgood Hnone.
  rewrite (search_one_bucket _ _ _ _ _ _ _ _ _ Hbucket Hs3 Hdumps Hloads).
  destruct (true_for exact); by rewrite select_missing_key.
Qed.

(** *** [upload_file] and [download_file] *)

Local Abbreviation upload :=
  (S3.upload_file s3_upload_file urlretrieve json_dumps float_is_zero basename).
Local Abbreviation download :=
  (S3.download_file s3_download_file json_dumps basename join).

(** X17: When [upload_file] returns, exactly one upload was requested and the
    status names its source: for a remote source the local file named
    after the last component of the address, fetched just before; for a
    local source the source itself, with nothing fetched. *)
Theorem upload_reports_what_it_uploaded source bucket key is_remote_url w doc :
  result (upload source bucket key is_remote_url w) = inr doc ->
  let status uploaded :=
    json_dumps (PyDict [("status", PyStr "success"); ("source", uploaded);
                        ("bucket", bucket); ("key", key)]) in
  if true_for is_remote_url then
    exists url,
      source = PyStr url
      /\ requests (upload source bucket key is_remote_url w)
         = [UrlRetrieve source (basename url); UploadFile (PyStr (basename url)) bucket key]
      /\ doc = status (PyStr (basename url))
  else
    requests (upload source bucket key is_remote_url w) = [UploadFile source bucket key]
    /\ doc = status source.
Proof.
  cbv zeta. unfold upload_file, bind, request, lift, ret.
  destruct (true_for is_remote_url).
  - destruct source; cbn [path_basename]; try discriminate.
    destruct (urlretrieve _ _ w) as [w1 [e|[]]]; [discriminate|].
    destruct (s3_upload_file _ _ _ w1) as [w2 [e|[]]]; [discriminate|].
    cbn. intros [= <-]. eauto.
  - destruct (s3_upload_file _ _ _ w) as [w2 [e|[]]]; [discriminate|].
    cbn. intros [= <-]. auto.
Qed.

(** X18: When fetching a remote source fails, [upload_file] raises what the
    fetch raised and requests no upload. *)
Theorem upload_nothing_after_failed_fetch url bucket key is_remote_url w w1 e :
  true_for is_remote_url = true ->
  urlretrieve (PyStr url) (basename url) w = (w1, inl e) ->
  upload (PyStr url) bucket key is_remote_url w
  = mkStep w1 [UrlRetrieve (PyStr url) (basename url)] (inl e).
Proof.
  intros Hflag Hfetch. unfold upload_file, bind, request, lift, ret.
  rewrite Hflag. cbn [path_basename]. rewrite Hfetch. reflexivity.
Qed.

(** X19: [download_file] reports success only after one download request, for
    the given bucket and key, to the file named after the last component
    of the key inside the directory; key and directory were strings. *)
Theorem download_reports_after_download bucket key directory w doc :
  result (download bucket key directory w) = inr doc ->
  exists k d,
    key = PyStr k /\ directory = PyStr d
    /\ requests (download bucket key directory w)
       = [DownloadFile bucket key (join d (basename k))]
    /\ doc = json_dumps (PyDict [("status", PyStr "success"); ("bucket", bucket);
                                 ("key", key);
                                 ("destination", PyStr (join d (basename k)))]).
Proof.
  unfold download_file, bind, request, lift, ret.
  destruct key; cbn [path_basename]; try discriminate.
  destruct directory; cbn [path_join]; try discriminate.
  destruct (s3_download_file _ _ _ w) as [w1 [e|[]]]; [discriminate|].
  cbn. intros [= <-]. eauto 10.
Qed.

End HelperFacts.

(** * The further properties at concrete inputs *)

(** X2 at a concrete input. *)
Lemma non_object_arguments_refused_witness :
  let r := Stub.run (Stub.selecting [Stub.tool_call "call_1" "list_buckets" "[]"])
                    "list my S3 buckets" in
  outcome r = Raised (TypeError NotAMapping)
  /\ calls (events r) = [Completion]
  /\ world (final r) = 0.
Proof.
  cbv zeta. unfold Stub.run, Stub.start.
  apply (non_object_arguments_refused
           (Stub.selecting [Stub.tool_call "call_1" "list_buckets" "[]"])
           Stub.json_loads Stub.registry "list my S3 buckets" default_topic false 0 []
           0 (Stub.tool_reply [Stub.tool_call "call_1" "list_buckets" "[]"])
           (mkChoice (mkMessage None (Some [Stub.tool_call "call_1" "list_buckets" "[]"])))
           [] (Stub.tool_call "call_1" "list_buckets" "[]") [] (PyList [])
           (list_buckets (Stub.counting "[]")));
    try reflexivity.
  intros kw. discriminate.
Defined.

(** X3 at a concrete input. *)
Lemma refused_arguments_skip_body_witness :
  let r := Stub.run (Stub.selecting [Stub.tool_call "call_1" "download_file" "{}"])
                    "download it" in
  outcome r = Raised (TypeError (MissingArguments ["bucket"; "key"; "directory"]))
  /\ calls (events r) = [Completion]
  /\ world (final r) = 0.
Proof.
  cbv zeta. unfold Stub.run, Stub.start.
  apply (refused_arguments_skip_body
           (Stub.selecting [Stub.tool_call "call_1" "download_file" "{}"])
           Stub.json_loads Stub.registry "download it" default_topic false 0 []
           0 (Stub.tool_reply [Stub.tool_call "call_1" "download_file" "{}"])
           (mkChoice (mkMessage None (Some [Stub.tool_call "call_1" "download_file" "{}"])))
           [] (Stub.tool_call "call_1" "download_file" "{}") [] []
           (download_file (Stub.counting "{}")));
    reflexivity.
Defined.

(** X4 at a concrete input. *)
Lemma empty_choices_index_error_witness :
  let r := run_conversation Silent.always Stub.json_loads Stub.registry
                            "hello" default_topic true Stub.start in
  outcome r = Raised IndexError
  /\ events r = [CompletionCall (first_request "hello" default_topic)
                                (inr (mkCompletion []))].
Proof.
  cbv zeta. unfold Stub.start.
  apply (empty_choices_index_error Silent.always Stub.json_loads Stub.registry
           "hello" default_topic true 0 [] 0 (mkCompletion []));
    reflexivity.
Defined.

(** X5 at a concrete input. *)
Lemma empty_second_choices_after_handler_witness :
  let r := Stub.run (Silent.after_selecting [Stub.tool_call "call_1" "list_buckets" "{}"])
                    "list my S3 buckets" in
  outcome r = Raised IndexError
  /\ handler_calls (events r) = [("list_buckets", [])]
  /\ world (final r) = 1.
Proof.
  cbv zeta. unfold Stub.run, Stub.start.
  apply (empty_second_choices_after_handler
           (Silent.after_selecting [Stub.tool_call "call_1" "list_buckets" "{}"])
           Stub.json_loads Stub.registry "list my S3 buckets" default_topic false 0 []
           0 (Stub.tool_reply [Stub.tool_call "call_1" "list_buckets" "{}"])
           (mkChoice (mkMessage None (Some [Stub.tool_call "call_1" "list_buckets" "{}"])))
           [] (Stub.tool_call "call_1" "list_buckets" "{}") [] []
           (list_buckets (Stub.counting "[]")) 1 "[]" 1 (mkCompletion []));
    reflexivity.
Defined.

(** X6 at a concrete input. *)
Lemma requests_well_formed_witness :
  let req :=
    mkCreateArgs GPT_MODEL
      [DictMessage "system" (system_message default_topic) None;
       DictMessage "user" "list my S3 buckets" None;
       ResponseMessage (mkMessage None (Some [Stub.tool_call "call_1" "list_buckets" "{}"]));
       DictMessage "tool" "[]" (Some "call_1")]
      None None in
  model req = GPT_MODEL
  /\ take 2 (messages req) = initial_conversation "list my S3 buckets" default_topic
  /\ ((tools req = Some functions /\ tool_choice req = Some "auto")
      \/ (tools req = None /\ tool_choice req = None)).
Proof.
  cbv zeta.
  apply (requests_well_formed
           (Stub.selecting [Stub.tool_call "call_1" "list_buckets" "{}"])
           Stub.json_loads Stub.registry "list my S3 buckets" default_topic false
           Stub.start).
  vm_compute. apply list_elem_of_further, list_elem_of_here.
Defined.

(** X9 at a concrete input. *)
Lemma conforming_call_reaches_handler_witness :
  let tc := Stub.tool_call "call_1" "list_buckets" "{}" in
  (exists f, Stub.registry !! "list_buckets" = Some f
             /\ bind_arguments (fn_params f) [] = None)
  /\ handler_calls (events (Stub.run (Stub.selecting [tc]) "list my S3 buckets"))
     = [("list_buckets", [])].
Proof.
  cbv zeta. unfold Stub.run, Stub.start, Stub.registry.
  apply (conforming_call_reaches_handler
           (Stub.counting "[]") (Stub.counting "[]") (Stub.counting "{}")
           (Stub.counting "{}") (Stub.counting "[]")
           (Stub.selecting [Stub.tool_call "call_1" "list_buckets" "{}"])
           Stub.json_loads "list my S3 buckets" default_topic false 0 []
           0 (Stub.tool_reply [Stub.tool_call "call_1" "list_buckets" "{}"])
           (mkChoice (mkMessage None (Some [Stub.tool_call "call_1" "list_buckets" "{}"])))
           [] (Stub.tool_call "call_1" "list_buckets" "{}") [] []
           (function_spec "list_buckets" "List all available S3 buckets"
              (PyDict [("type", PyStr "object"); ("properties", PyDict [])])));
    try reflexivity.
  apply list_elem_of_here.
Defined.

(** X10 at a concrete input. *)
Lemma search_rejects_non_string_witness :
  Bucket.search (PyInt 7) (PyStr "photos") S3.default_prefix (PyBool true) 0
  = S3.mkStep 0 [] (inl (S3.AttributeError "int" "lower")).
Proof.
  unfold Bucket.search.
  apply (search_rejects_non_string Bucket.s3_list_buckets Bucket.s3_list_objects_v2
           Bucket.dumps_listing Bucket.dumps_count Bucket.loads_listing Bucket.str_lower
           Bucket.characters Bucket.float_is_zero
           (PyInt 7) (PyStr "photos") S3.default_prefix (PyBool true) 0).
  intros n. discriminate.
Defined.

(** X11 at a concrete input. *)
Lemma search_given_bucket_requests_witness :
  S3.requests (Bucket.search (PyStr "cat") (PyStr "archive") S3.default_prefix (PyBool true) 0)
  = [S3.ListObjectsV2 (PyStr "archive") S3.default_prefix].
Proof.
  unfold Bucket.search.
  apply (search_given_bucket_requests Bucket.s3_list_buckets Bucket.s3_list_objects_v2
           Bucket.dumps_listing Bucket.dumps_count Bucket.loads_listing Bucket.str_lower
           Bucket.characters Bucket.float_is_zero
           "cat" (PyStr "archive") S3.default_prefix (PyBool true) 0).
  discriminate.
Defined.

(** X12 at a concrete input. *)
Lemma search_in_bucket_witness :
  Bucket.search (PyStr "CAT.jpg") (PyStr "photos") S3.default_prefix (PyBool false) 0
  = S3.mkStep 0 [S3.ListObjectsV2 (PyStr "photos") S3.default_prefix]
      (inr (Bucket.dumps_count
              (PyList [S3.found (PyStr "photos") (PyDict [("Key", PyStr "Cat.JPG")]);
                       S3.found (PyStr "photos") (PyDict [("Key", PyStr "cat.jpg.bak")])]))).
Proof.
  unfold Bucket.search.
  apply (search_in_bucket Bucket.s3_list_buckets Bucket.s3_list_objects_v2
           Bucket.dumps_listing Bucket.dumps_count Bucket.loads_listing Bucket.str_lower
           Bucket.characters Bucket.float_is_zero
           "CAT.jpg" (PyStr "photos") S3.default_prefix (PyBool false) 0 0
           [("Contents", S3.BList [S3.BDict [("Key", S3.BStr "Cat.JPG")];
                                   S3.BDict [("Key", S3.BStr "cat.jpg.bak")];
                                   S3.BDict [("Key", S3.BStr "dog.png")]])]
           "objects"
           [PyDict [("Key", PyStr "Cat.JPG")];
            PyDict [("Key", PyStr "cat.jpg.bak")];
            PyDict [("Key", PyStr "dog.png")]]).
  - discriminate.
  - reflexivity.
  - reflexivity.
  - reflexivity.
  - repeat constructor; by eexists.
Defined.

(** X13 at a concrete input. *)
Lemma search_empty_bucket_witness :
  Bucket.search (PyStr "cat") (PyStr "logs") S3.default_prefix (PyBool true) 0
  = S3.mkStep 0 [S3.ListObjectsV2 (PyStr "logs") S3.default_prefix]
              (inr (Bucket.dumps_count (PyList []))).
Proof.
  unfold Bucket.search.
  apply (search_empty_bucket Bucket.s3_list_buckets Bucket.s3_list_objects_v2
           Bucket.dumps_listing Bucket.dumps_count Bucket.loads_listing Bucket.str_lower
           Bucket.characters Bucket.float_is_zero
           "cat" (PyStr "logs") S3.default_prefix (PyBool true) 0 0
           [("KeyCount", S3.BInt 0)] "[]").
  - discriminate.
  - reflexivity.
  - reflexivity.
  - reflexivity.
  - reflexivity.
Defined.

(** X15 at a concrete input. *)
Lemma exact_hits_are_partial_hits_witness :
  exists exact partial,
    "1 item" = Bucket.dumps_count (PyList exact)
    /\ Bucket.search (PyStr "CAT.jpg") PyNone S3.default_prefix (PyBool false) 0
       = S3.mkStep
           (S3.after (Bucket.search (PyStr "CAT.jpg") PyNone S3.default_prefix (PyBool true) 0))
           (S3.requests (Bucket.search (PyStr "CAT.jpg") PyNone S3.default_prefix (PyBool true) 0))
           (inr (Bucket.dumps_count (PyList partial)))
    /\ sublist exact partial.
Proof.
  unfold Bucket.search.
  apply (exact_hits_are_partial_hits Bucket.s3_list_buckets Bucket.s3_list_objects_v2
           Bucket.dumps_listing Bucket.dumps_count Bucket.loads_listing Bucket.str_lower
           Bucket.characters Bucket.float_is_zero
           (PyStr "CAT.jpg") PyNone S3.default_prefix (PyBool true) (PyBool false) 0 "1 item");
    reflexivity.
Defined.

(** X16 at a concrete input. *)
Lemma search_all_buckets_requests_witness :
  exists listing buckets_response infos names,
    S3.result (S3.list_buckets Bucket.s3_list_buckets Bucket.dumps_listing 0) = inr listing
    /\ Bucket.loads_listing listing = Some buckets_response
    /\ S3.iterate Bucket.characters buckets_response = inr infos
    /\ S3.collect (fun bucket_info => S3.getitem bucket_info "Name") infos = inr names
    /\ S3.requests (Bucket.search (PyStr "dog") PyNone S3.default_prefix (PyBool false) 0)
       = S3.ListBuckets :: ((fun b => S3.ListObjectsV2 b S3.default_prefix) <$> names).
Proof.
  unfold Bucket.search.
  apply (search_all_buckets_requests Bucket.s3_list_buckets Bucket.s3_list_objects_v2
           Bucket.dumps_listing Bucket.dumps_count Bucket.loads_listing Bucket.str_lower
           Bucket.characters Bucket.float_is_zero
           "dog" S3.default_prefix (PyBool false) 0 "1 item").
  reflexivity.
Defined.

(** X17 at a concrete input. *)
Lemma upload_reports_what_it_uploaded_witness :
  exists url,
    PyStr "https://example.com/img/cat.jpg" = PyStr url
    /\ S3.requests (Bucket.upload (PyStr "https://example.com/img/cat.jpg")
                                  (PyStr "photos") (PyStr "cat.jpg") (PyBool true) 0)
       = [S3.UrlRetrieve (PyStr "https://example.com/img/cat.jpg") (Bucket.basename url);
          S3.UploadFile (PyStr (Bucket.basename url)) (PyStr "photos") (PyStr "cat.jpg")]
    /\ "object"
       = Bucket.dumps_count
           (PyDict [("status", PyStr "success"); ("source", PyStr (Bucket.basename url));
                    ("bucket", PyStr "photos"); ("key", PyStr "cat.jpg")]).
Proof.
  unfold Bucket.upload.
  apply (upload_reports_what_it_uploaded Bucket.s3_upload_file Bucket.urlretrieve
           Bucket.dumps_count Bucket.float_is_zero Bucket.basename
           (PyStr "https://example.com/img/cat.jpg") (PyStr "photos") (PyStr "cat.jpg")
           (PyBool true) 0 "object").
  reflexivity.
Defined.

(** X18 at a concrete input. *)
Lemma upload_nothing_after_failed_fetch_witness :
  Bucket.upload (PyStr "https://example.org/dog.png") (PyStr "photos") (PyStr "dog.png")
                (PyBool true) 0
  = S3.mkStep 0 [S3.UrlRetrieve (PyStr "https://example.org/dog.png") "dog.png"]
              (inl (S3.Core (ExternalError "URLError" "https://example.org/dog.png"))).
Proof.
  unfold Bucket.upload.
  apply (upload_nothing_after_failed_fetch Bucket.s3_upload_file Bucket.urlretrieve
           Bucket.dumps_count Bucket.float_is_zero Bucket.basename
           "https://example.org/dog.png" (PyStr "photos") (PyStr "dog.png")
           (PyBool true) 0 0
           (S3.Core (ExternalError "URLError" "https://example.org/dog.png")));
    reflexivity.
Defined.

(** X19 at a concrete input. *)
Lemma download_reports_after_download_witness :
  exists k d,
    PyStr "2023/Cat.JPG" = PyStr k /\ PyStr "/tmp" = PyStr d
    /\ S3.requests (Bucket.download (PyStr "photos") (PyStr "2023/Cat.JPG") (PyStr "/tmp") 0)
       = [S3.DownloadFile (PyStr "photos") (PyStr "2023/Cat.JPG")
                          (Bucket.join d (Bucket.basename k))]
    /\ "object"
       = Bucket.dumps_count
           (PyDict [("status", PyStr "success"); ("bucket", PyStr "photos");
                    ("key", PyStr "2023/Cat.JPG");
                    ("destination", PyStr (Bucket.join d (Bucket.basename k)))]).
Proof.
  unfold Bucket.download.
  apply (download_reports_after_download Bucket.s3_download_file Bucket.dumps_count
           Bucket.basename Bucket.join
           (PyStr "photos") (PyStr "2023/Cat.JPG") (PyStr "/tmp") 0 "object").
  reflexivity.
Defined.

(** X14 at a concrete input. *)
Lemma search_object_without_key_witness :
  let service bucket prefix (w : nat) :=
    (w, inr [("Contents", S3.BList [S3.BDict [("Key", S3.BStr "Cat.JPG")];
                                    S3.BDict [("Size", S3.BInt 3)]])])
    : nat * (S3.PyError + list (string * S3.BotoValue)) in
  let decode (doc : string) :=
    Some (PyList [PyDict [("Key", PyStr "Cat.JPG")]; PyDict [("Size", PyInt 3)]]) in
  S3.search_s3_objects Bucket.s3_list_buckets service Bucket.dumps_listing
    Bucket.dumps_count decode Bucket.str_lower Bucket.characters Bucket.float_is_zero
    (PyStr "cat.jpg") (PyStr "photos") S3.default_prefix S3.default_exact_match 0
  = S3.mkStep 0 [S3.ListObjectsV2 (PyStr "photos") S3.default_prefix]
              (inl (S3.Core (KeyError "Key"))).
Proof.
  cbv zeta.
  apply (search_object_without_key Bucket.s3_list_buckets _ Bucket.dumps_listing
           Bucket.dumps_count _ Bucket.str_lower Bucket.characters Bucket.float_is_zero
           "cat.jpg" (PyStr "photos") S3.default_prefix S3.default_exact_match 0 0
           [("Contents", S3.BList [S3.BDict [("Key", S3.BStr "Cat.JPG")];
                                   S3.BDict [("Size", S3.BInt 3)]])]
           "objects" [PyDict [("Key", PyStr "Cat.JPG")]] [("Size", PyInt 3)] []).
  - discriminate.
  - reflexivity.
  - reflexivity.
  - reflexivity.
  - repeat constructor; by eexists.
  - reflexivity.
Defined.
